(** * torn_open.api_spec_plugin: OpenAPI generation from annotated handlers

    A shallow embedding of [src/torn_open/api_spec_plugin.py].  Python values
    are a small universe [pyval]; dicts are association lists in insertion
    order; every function that can raise returns a [result]; the component
    registry is threaded explicitly through the functions that write to it. *)

From Equations Require Import Equations.
From Stdlib Require Import List String Ascii ZArith Arith Bool Lia Permutation Sorted.
Import ListNotations.
Open Scope string_scope.
Open Scope list_scope.

Set Implicit Arguments.
Set Warnings "-register-all".

(** ** Exceptions and the error monad *)

Module Py.

Inductive exn : Type :=
| AttributeError
| TypeError
| ValueError
| KeyError
| IndexError
| DuplicateComponentNameError
| NotModelled.  (* a Python behaviour outside the fragment embedded here *)

Inductive result (A : Type) : Type :=
| OK (a : A)
| Raise (e : exn).
Arguments OK {A} a.
Arguments Raise {A} e.

Definition bind {A B : Type} (r : result A) (k : A -> result B) : result B :=
  match r with
  | OK a => k a
  | Raise e => Raise e
  end.

Definition is_ok {A : Type} (r : result A) : bool :=
  match r with OK _ => true | Raise _ => false end.

End Py.
Export Py.

Notation "x <- c ;; k" := (bind c (fun x => k))
  (at level 61, c at next level, right associativity).
Notation "' p <- c ;; k" := (bind c (fun x => let p := x in k))
  (at level 61, p pattern, c at next level, right associativity).

(** ** Python values *)

(** [VFloat m e] is the float [m * 2^e].  [VMember cls members name] is the
    member [name] of the plain [Enum] class [cls] whose [__members__] are
    [members] (declaration order, aliases included).  [VObject cls] is an
    instance of a user class that defines neither [__bool__] nor [__len__]. *)
Inductive pyval : Type :=
| VNone
| VBool (b : bool)
| VInt (z : Z)
| VFloat (m e : Z)
| VStr (s : string)
| VList (l : list pyval)
| VDict (d : list (string * pyval))
| VMember (cls : string) (members : list (string * pyval)) (name : string)
| VObject (cls : string).

Definition dict : Type := list (string * pyval).

(** *** Dicts as insertion-ordered association lists *)

Section Dict.
Variable V : Type.

Fixpoint dict_get (d : list (string * V)) (k : string) : option V :=
  match d with
  | [] => None
  | (k', v) :: rest => if String.eqb k' k then Some v else dict_get rest k
  end.

(** [d[k] = v]: an existing key keeps its position, a new key goes last. *)
Fixpoint dict_set (d : list (string * V)) (k : string) (v : V) : list (string * V) :=
  match d with
  | [] => [(k, v)]
  | (k', v') :: rest =>
      if String.eqb k' k then (k', v) :: rest else (k', v') :: dict_set rest k v
  end.

(** [d.pop(k, default)] leaves the remaining entries in place. *)
Fixpoint dict_remove (d : list (string * V)) (k : string) : list (string * V) :=
  match d with
  | [] => []
  | (k', v) :: rest =>
      if String.eqb k' k then dict_remove rest k else (k', v) :: dict_remove rest k
  end.

Definition keys (d : list (string * V)) : list string := map fst d.
Definition values (d : list (string * V)) : list V := map snd d.

(** [d[k]], raising [KeyError] on a missing key. *)
Definition dict_item (d : list (string * V)) (k : string) : result V :=
  match dict_get d k with
  | Some v => OK v
  | None => Raise KeyError
  end.
End Dict.

(** *** Truth value testing *)

Definition truthy (v : pyval) : bool :=
  match v with
  | VNone => false
  | VBool b => b
  | VInt z => negb (Z.eqb z 0)
  | VFloat m _ => negb (Z.eqb m 0)
  | VStr s => negb (String.eqb s EmptyString)
  | VList l => match l with [] => false | _ => true end
  | VDict d => match d with [] => false | _ => true end
  | VMember _ _ _ => true
  | VObject _ => true
  end.

(** *** Equality ([==]) *)

(** Numbers compare by value across [bool], [int] and [float]. *)
Definition as_number (v : pyval) : option (Z * Z) :=
  match v with
  | VBool b => Some (if b then 1%Z else 0%Z, 0%Z)
  | VInt z => Some (z, 0%Z)
  | VFloat m e => Some (m, e)
  | _ => None
  end.

Definition number_eqb (a b : Z * Z) : bool :=
  let '(m1, e1) := a in
  let '(m2, e2) := b in
  let e := Z.min e1 e2 in
  Z.eqb (m1 * 2 ^ (e1 - e)) (m2 * 2 ^ (e2 - e)).

(** Dicts compare without regard to insertion order, lists position by
    position; enum members and opaque objects compare by identity, which the
    embedding reads off the class and member names. *)
Fixpoint py_eq (a b : pyval) {struct a} : bool :=
  match a, b with
  | VNone, VNone => true
  | VStr s1, VStr s2 => String.eqb s1 s2
  | VList l1, VList l2 =>
      (fix go (xs : list pyval) (ys : list pyval) {struct xs} : bool :=
         match xs, ys with
         | [], [] => true
         | x :: xs', y :: ys' => py_eq x y && go xs' ys'
         | _, _ => false
         end) l1 l2
  | VDict d1, VDict d2 =>
      Nat.eqb (List.length d1) (List.length d2) &&
      (fix all (es : list (string * pyval)) {struct es} : bool :=
         match es with
         | [] => true
         | (k, v) :: es' =>
             match dict_get d2 k with
             | Some v2 => py_eq v v2
             | None => false
             end && all es'
         end) d1
  | VMember c1 _ n1, VMember c2 _ n2 => String.eqb c1 c2 && String.eqb n1 n2
  | VObject c1, VObject c2 => String.eqb c1 c2
  | _, _ =>
      match as_number a, as_number b with
      | Some x, Some y => number_eqb x y
      | _, _ => false
      end
  end.

(** ** [_clear_none_from_dict] *)

Definition _clear_none_from_dict (dictionary : dict) : dict :=
  filter (fun kv => truthy (snd kv)) dictionary.

(** ** Annotations *)

(** Plain classes that can stand as an annotation or be the type of a value. *)
Inductive pyclass : Type :=
| C_str
| C_int
| C_float
| C_list
| C_bool
| C_NoneType
| C_user (name : string).

(** The objects an [inspect.Parameter] can carry as its annotation.
    - [Class c]: a class object; it is an instance of [type] and has no
      [__args__].
    - [TypingList]: the bare [typing.List]; reading its [__args__] fails.
    - [OptionalOf t]: [typing.Optional[t]], with [__args__ = (t, NoneType)].
    - [ListOf t]: [typing.List[t]], with [__origin__ = list] and
      [__args__ = (t,)].
    - [EnumClass name members]: a class built by [EnumMeta]; [members] is
      [__members__] in declaration order.
    - [Generic name args]: any other subscripted typing form, such as
      [Dict[K, V]] or [Tuple[A, B]], with [__args__ = args].
    - [Plain descr]: an object that is not a class and has no [__args__]:
      [None], a string forward reference, a type variable. *)
Inductive annot : Type :=
| Class (c : pyclass)
| TypingList
| OptionalOf (t : annot)
| ListOf (t : annot)
| EnumClass (name : string) (members : list (string * pyval))
| Generic (name : string) (args : list annot)
| Plain (descr : string).

(** [type(v)] for a value [v]. *)
Definition type_of (v : pyval) : annot :=
  match v with
  | VNone => Class C_NoneType
  | VBool _ => Class C_bool
  | VInt _ => Class C_int
  | VFloat _ _ => Class C_float
  | VStr _ => Class C_str
  | VList _ => Class C_list
  | VDict _ => Class (C_user "dict")
  | VMember cls members _ => EnumClass cls members
  | VObject cls => Class (C_user cls)
  end.

(** [annotation.__args__] *)
Definition get_args (a : annot) : result (list annot) :=
  match a with
  | OptionalOf t => OK [t; Class C_NoneType]
  | ListOf t => OK [t]
  | Generic _ args => OK args
  | Class _ | TypingList | EnumClass _ _ | Plain _ => Raise AttributeError
  end.

(** [xs[0]] *)
Definition first {A : Type} (xs : list A) : result A :=
  match xs with
  | x :: _ => OK x
  | [] => Raise IndexError
  end.

(** [isinstance(annotation, type)] *)
Definition is_type (a : annot) : bool :=
  match a with
  | Class _ | EnumClass _ _ => true
  | _ => false
  end.

(** [isinstance(annotation, EnumMeta)] *)
Definition is_enum (a : annot) : bool :=
  match a with
  | EnumClass _ _ => true
  | _ => false
  end.

(** Modelled from the spec: [torn_open.types.is_optional], imported by the
    module but defined in a file that is not part of the sources at hand.
    The spec speaks of "the annotation is Optional": the predicate holds of
    [Optional[T]] and of nothing else. *)
Definition is_optional (a : annot) : bool :=
  match a with
  | OptionalOf _ => true
  | _ => false
  end.

(** Modelled from the spec: [is_optional] applied to a tuple of type
    arguments, as the last test of [_get_type] does.  A tuple is not an
    Optional annotation. *)
Definition is_optional_args (args : list annot) : bool := false.

(** Modelled from the spec: [torn_open.types.is_list], defined next to
    [is_optional].  The spec speaks of a "generic list/array type with a type
    argument": the predicate holds of [List[T]] and of nothing else. *)
Definition is_list (a : annot) : bool :=
  match a with
  | ListOf _ => true
  | _ => false
  end.

(** [annotation.__origin__], read only once [is_list] has answered yes. *)
Definition get_origin (a : annot) : result annot :=
  match a with
  | ListOf _ => OK (Class C_list)
  | OptionalOf _ | Generic _ _ => OK (Plain "origin")
  | _ => Raise AttributeError
  end.

(** ** Enumerations *)

(** [annotation.__members__], read only once [isinstance(annotation,
    EnumMeta)] has answered yes. *)
Definition get_members (a : annot) : list (string * pyval) :=
  match a with
  | EnumClass _ members => members
  | _ => []
  end.

(** [_unpack_enum]: the generator yields each member's value. *)
Definition _unpack_enum (enum_meta : annot) : list pyval :=
  values (get_members enum_meta).

(** [_get_type_of_enum_value]: the type of the first yielded value; the loop
    body returns at once, and an enumeration without members yields nothing,
    so the function falls through and returns [None]. *)
Definition _get_type_of_enum_value (enum_meta : annot) : annot :=
  match _unpack_enum enum_meta with
  | enum_item :: _ => type_of enum_item
  | [] => Plain "None"
  end.

(** ** Type inference *)

Definition types_mapping (a : annot) : option string :=
  match a with
  | Class C_str => Some "string"
  | Class C_int => Some "integer"
  | Class C_float => Some "number"
  | Class C_list => Some "array"
  | TypingList => Some "array"
  | _ => None
  end.

(** Termination measure for [_get_type]: the depth of the chain of
    annotations it can walk through. *)
Fixpoint value_rank (v : pyval) : nat :=
  match v with
  | VMember _ members _ =>
      S (match members with
         | (_, v') :: _ => value_rank v'
         | [] => 1
         end)
  | _ => 1
  end.

Fixpoint rank (a : annot) : nat :=
  match a with
  | OptionalOf t => S (rank t)
  | ListOf t => S (S (rank t))
  | EnumClass _ members =>
      S (match members with
         | (_, v) :: _ => value_rank v
         | [] => 1
         end)
  | Generic _ args => S (list_max (map rank args))
  | Class _ | TypingList | Plain _ => 1
  end.

Lemma rank_type_of (v : pyval) : rank (type_of v) = value_rank v.
Proof. destruct v; reflexivity. Qed.

Lemma rank_enum_value (name : string) (members : list (string * pyval)) :
  rank (_get_type_of_enum_value (EnumClass name members)) < rank (EnumClass name members).
Proof.
  unfold _get_type_of_enum_value, _unpack_enum, values.
  destruct members as [|[k v] rest]; simpl.
  - lia.
  - rewrite rank_type_of. lia.
Qed.

(** Every recursive call of [_get_type] is in tail position, so one pass
    through its body either returns or names the annotation to go on with. *)
Inductive step : Type :=
| Return (r : result (option string))
| Again (a : annot).

Definition again (r : result annot) : step :=
  match r with
  | OK a => Again a
  | Raise e => Return (Raise e)
  end.

Definition _get_type_body (annotation : annot) : step :=
  match types_mapping annotation with
  | Some t => Return (OK (Some t))
  | None =>
      if is_optional annotation then
        again (args <- get_args annotation ;; first args)
      else if is_enum annotation then
        again (OK (_get_type_of_enum_value annotation))
      else if is_list annotation then
        again (get_origin annotation)
      else if negb (is_type annotation) then
        match get_args annotation with
        | Raise e => Return (Raise e)
        | OK args =>
            if is_optional_args args then again (first args)
            else Return (OK None)
        end
      else Return (OK None)
  end.

Lemma _get_type_body_rank (a a' : annot) :
  _get_type_body a = Again a' -> rank a' < rank a.
Proof.
  unfold _get_type_body.
  destruct a as [c| |t|t|n ms|n args|d]; simpl.
  - destruct c; discriminate.
  - discriminate.
  - intros H; inversion H; subst. lia.
  - intros H; inversion H; subst. simpl. lia.
  - intros H; inversion H; subst. apply (rank_enum_value n ms).
  - discriminate.
  - discriminate.
Qed.

Definition with_eq {A : Type} (x : A) : { y : A | x = y } := exist _ x eq_refl.

Equations? _get_type (annotation : annot) : result (option string)
  by wf (rank annotation) lt :=
  _get_type annotation with with_eq (_get_type_body annotation) := {
    | exist _ (Return r) _ => r
    | exist _ (Again a') H => _get_type a' }.
Proof. apply _get_type_body_rank. exact H. Qed.

(** ** Array items *)

Definition _get_item_type (annotation : annot) : result (option string) :=
  args <- get_args annotation ;;
  if Nat.eqb (List.length args) 1 then
    a0 <- first args ;;
    _get_type a0
  else if is_optional annotation then
    a0 <- first args ;;
    args0 <- get_args a0 ;;
    a00 <- first args0 ;;
    _get_type a00
  else OK None.

Definition opt_str (o : option string) : pyval :=
  match o with
  | Some s => VStr s
  | None => VNone
  end.

(** [Items] returns [None] or a one-key dict. *)
Definition Items (annotation : annot) : result pyval :=
  t <- _get_type annotation ;;
  if negb (py_eq (opt_str t) (VStr "array")) then OK VNone
  else
    item_type <- _get_item_type annotation ;;
    OK (VDict [("type", opt_str item_type)]).

(** ** Parameters and their schemas *)

(** [inspect.Parameter] ([Parameter] is a reserved word here, hence the
    underscore): [default = None] stands for [inspect._empty]. *)
Module inspect.
Record Parameter_ : Type := {
  name : string;
  annotation : annot;
  default : option pyval
}.
End inspect.

(** [default.value] *)
Definition get_value (v : pyval) : result pyval :=
  match v with
  | VMember _ members name =>
      match dict_get members name with
      | Some value => OK value
      | None => Raise AttributeError
      end
  | VObject _ => Raise NotModelled
  | _ => Raise AttributeError
  end.

Definition _get_default_value_of_parameter (parameter : inspect.Parameter_)
  : result pyval :=
  let annotation := inspect.annotation parameter in
  let default :=
    match inspect.default parameter with
    | Some d => d
    | None => VNone
    end in
  if truthy default && is_enum annotation then get_value default else OK default.

Definition Schema (parameter : inspect.Parameter_) : result dict :=
  let annotation := inspect.annotation parameter in
  _type <- _get_type annotation ;;
  let _enum :=
    if is_enum annotation then VList (_unpack_enum annotation) else VNone in
  default <- _get_default_value_of_parameter parameter ;;
  items <- Items annotation ;;
  let schema :=
    [("type", opt_str _type);
     ("enum", _enum);
     ("default", default);
     ("items", items)] in
  OK (_clear_none_from_dict schema).

Definition Parameter_ (parameter : inspect.Parameter_) (param_type : string)
  (required : option bool) : result dict :=
  let required' :=
    match required with
    | Some r => r
    | None => negb (is_optional (inspect.annotation parameter))
    end in
  schema <- Schema parameter ;;
  OK [("name", VStr (inspect.name parameter));
      ("in", VStr param_type);
      ("required", VBool required');
      ("schema", VDict schema)].

Definition PathParameter (parameter : inspect.Parameter_) : result dict :=
  Parameter_ parameter "path" (Some true).

Definition QueryParameter (parameter : inspect.Parameter_) : result dict :=
  Parameter_ parameter "query" None.

(** ** Strings *)

(** Text is ASCII; the methods below act on it as [str] does. *)
Module Str.

Definition is_upper (c : ascii) : bool :=
  let n := nat_of_ascii c in Nat.leb 65 n && Nat.leb n 90.

(** [str.lower] *)
Fixpoint lower (s : string) : string :=
  match s with
  | EmptyString => EmptyString
  | String c rest =>
      String (if is_upper c then ascii_of_nat (nat_of_ascii c + 32) else c) (lower rest)
  end.

(** The characters [str.isspace] accepts: tab to carriage return, the four
    separators, space. *)
Definition is_space (c : ascii) : bool :=
  let n := nat_of_ascii c in
  (Nat.leb 9 n && Nat.leb n 13) || (Nat.leb 28 n && Nat.leb n 31) || Nat.eqb n 32.

Section Strip.
Variable drop : ascii -> bool.

Fixpoint lstrip_by (s : string) : string :=
  match s with
  | EmptyString => EmptyString
  | String c rest => if drop c then lstrip_by rest else s
  end.

Fixpoint rstrip_by (s : string) : string :=
  match s with
  | EmptyString => EmptyString
  | String c rest =>
      match rstrip_by rest with
      | EmptyString => if drop c then EmptyString else String c EmptyString
      | kept => String c kept
      end
  end.
End Strip.

(** [s.strip()] *)
Definition strip (s : string) : string := rstrip_by is_space (lstrip_by is_space s).

(** Membership of a character in a string, as in [s.rstrip(chars)]. *)
Fixpoint mem (c : ascii) (chars : string) : bool :=
  match chars with
  | EmptyString => false
  | String c' rest => Ascii.eqb c' c || mem c rest
  end.

(** [s.rstrip(chars)] *)
Definition rstrip (s chars : string) : string := rstrip_by (fun c => mem c chars) s.

(** [fmt % args] for a tuple [args] of strings.  [%s] takes the next
    argument and [%%] is a percent sign; the conversions that reject a string
    raise as Python does; flags, widths, precisions, [%r] and [%a] are left
    out of the embedding. *)
Fixpoint format (fmt : string) (args : list string) : result string :=
  match fmt with
  | EmptyString =>
      match args with
      | [] => OK EmptyString
      | _ :: _ => Raise TypeError          (* not all arguments converted *)
      end
  | String c rest =>
      if negb (Ascii.eqb c "%") then
        r <- format rest args ;; OK (String c r)
      else
        match rest with
        | EmptyString => Raise ValueError  (* incomplete format *)
        | String d rest' =>
            if Ascii.eqb d "%" then
              r <- format rest' args ;; OK (String "%" r)
            else if Ascii.eqb d "s" then
              match args with
              | [] => Raise TypeError      (* not enough arguments *)
              | a :: args' => r <- format rest' args' ;; OK (a ++ r)%string
              end
            else if Ascii.eqb d "c" then
              match args with
              | [] => Raise TypeError
              | a :: args' =>
                  if Nat.eqb (String.length a) 1
                  then r <- format rest' args' ;; OK (a ++ r)%string
                  else Raise TypeError     (* %c requires int or char *)
              end
            else if mem d "diouxXeEfFgG(*" then Raise TypeError
            else if mem d "#0123456789- +.hlLra" then Raise NotModelled
            else Raise ValueError          (* unsupported format character *)
        end
  end.

End Str.

(** ** Handlers and routes *)

(** What [getattr(handler, verb)] finds on a handler class: the framework's
    stub [RequestHandler._unimplemented_method], or a method of the handler's
    own with its docstring and the attributes the [tags] and [summary]
    decorators leave on it. *)
Inductive handler_method : Type :=
| Unimplemented
| Method (doc : option string) (_openapi_tags _openapi_summary : option pyval).

(** A response model class: its [__doc__] and the dict that
    [response_model.schema(ref_template=SCHEMA_REF_TEMPLATE)] renders. *)
Record ResponseModel : Type := {
  model_doc : option string;
  model_schema : pyval
}.

(** The handler class.  The tables are keyed by lower-case verb.  An entry
    of [json_param] is falsy ([None]) or a pair of the parameter's name and
    the schema its annotated model renders. *)
Record Handler : Type := {
  SUPPORTED_METHODS : list string;
  methods : list (string * handler_method);
  path_params : list (string * inspect.Parameter_);
  query_params : list (string * list (string * inspect.Parameter_));
  json_param : list (string * option (string * pyval));
  response_models : list (string * option ResponseModel)
}.

(** The compiled pattern [url_spec.regex]: [groups] counts all capture
    groups, [groupindex] maps each group name to its index. *)
Record Regex : Type := {
  groups : nat;
  groupindex : list (string * nat)
}.

(** [matcher_path] is [url_spec.matcher._path], which is [None] when the
    framework cannot reverse the pattern. *)
Record URLSpec : Type := {
  regex : Regex;
  matcher_path : option string;
  handler_class : Handler
}.

(** [getattr(handler, name)] and [getattr(handler, name, None)] *)
Definition getattr (handler : Handler) (name : string) : result handler_method :=
  match dict_get (methods handler) name with
  | Some m => OK m
  | None => Raise AttributeError
  end.

Definition getattr_default (handler : Handler) (name : string) : option handler_method :=
  dict_get (methods handler) name.

Fixpoint mapM {A B : Type} (f : A -> result B) (l : list A) : result (list B) :=
  match l with
  | [] => OK []
  | x :: rest => y <- f x ;; ys <- mapM f rest ;; OK (y :: ys)
  end.

(** ** Path helper methods *)

Section Sorted.
Variable A : Type.
Variable key : A -> nat.

Fixpoint insert_sorted (x : A) (l : list A) : list A :=
  match l with
  | [] => [x]
  | y :: rest =>
      if Nat.leb (key x) (key y) then x :: y :: rest
      else y :: insert_sorted x rest
  end.

(** [sorted(items, key=key)]; the sort is stable. *)
Fixpoint sorted (l : list A) : list A :=
  match l with
  | [] => []
  | x :: rest => insert_sorted x (sorted rest)
  end.
End Sorted.

(** [{k: v for k, v in items}] *)
Definition dict_of_items {V : Type} (items : list (string * V)) : list (string * V) :=
  fold_left (fun d kv => dict_set d (fst kv) (snd kv)) items [].

Definition extract_and_sort_path_path_params (url_spec : URLSpec) : list string :=
  let path_params := groupindex (regex url_spec) in
  let path_params := dict_of_items (sorted (fun item => snd item) path_params) in
  map (fun param => ("{" ++ param ++ "}")%string) (keys path_params).

Definition replace_path_with_openapi_placeholders (url_spec : URLSpec)
  : result (option string) :=
  let path := matcher_path url_spec in
  if Nat.eqb (groups (regex url_spec)) 0 then OK path
  else
    let path_params := extract_and_sort_path_path_params url_spec in
    match path with
    | Some fmt => r <- Str.format fmt path_params ;; OK (Some r)
    | None => Raise TypeError
    end.

Definition right_strip_path (path : option string) : result string :=
  match path with
  | Some p => OK (Str.rstrip p "/*")
  | None => Raise AttributeError
  end.

Definition get_path (url_spec : URLSpec) : result string :=
  path <- replace_path_with_openapi_placeholders url_spec ;;
  right_strip_path path.

(** ** Path params *)

Definition get_path_params (url_spec : URLSpec) : result (list dict) :=
  let handler := handler_class url_spec in
  mapM PathParameter (values (path_params handler)).

(** ** The component registry *)

(** The registry is the [schemas] dict of the components object. *)
Module Components.

(** [apispec.core.Components.schema], the method [super().schema] resolves
    to.  apispec is a dependency of the module, not part of it; this follows
    the apispec release whose [APISpec.__init__] the module's
    [TornOpenAPISpec.__init__] repeats line by line.  A name already in the
    registry is refused; otherwise a copy of the component (an empty dict for
    a falsy one) is stored.  The module's plugin defines no [schema_helper],
    so the plugin loop adds nothing. *)
Definition schema (schemas : dict) (name : string) (component : pyval) : result dict :=
  match dict_get schemas name with
  | Some _ => Raise DuplicateComponentNameError
  | None =>
      let component := if truthy component then component else VDict [] in
      match component with
      | VDict _ | VList _ => OK (dict_set schemas name component)
      | _ => Raise AttributeError        (* no [copy] method *)
      end
  end.

End Components.

Module TornOpenComponents.

(** [self.schemas.get(component_id)] *)
Definition get (schemas : dict) (component_id : string) : pyval :=
  match dict_get schemas component_id with
  | Some v => v
  | None => VNone
  end.

Definition schema (schemas : dict) (component_id : string) (component : pyval)
  : result dict :=
  if py_eq (get schemas component_id) component then OK schemas
  else Components.schema schemas component_id component.

End TornOpenComponents.

(** ** Operations helper methods *)

Definition opt_val (o : option pyval) : pyval :=
  match o with
  | Some v => v
  | None => VNone
  end.

Definition _get_tags (method : string) (url_spec : URLSpec) : pyval :=
  let handler := handler_class url_spec in
  match getattr_default handler method with
  | Some Unimplemented => VNone
  | Some (Method _ tags _) => opt_val tags
  | None => VNone
  end.

Definition _get_summary (method : string) (url_spec : URLSpec) : pyval :=
  let handler := handler_class url_spec in
  match getattr_default handler method with
  | Some Unimplemented => VNone
  | Some (Method _ _ summary) => opt_val summary
  | None => VNone
  end.

(** [m.__doc__]; the framework's stub has no docstring. *)
Definition method_doc (m : handler_method) : option string :=
  match m with
  | Unimplemented => None
  | Method doc _ _ => doc
  end.

Definition _get_operation_description (method : string) (url_spec : URLSpec)
  : result pyval :=
  let handler := handler_class url_spec in
  m <- getattr handler method ;;
  match method_doc m with
  | Some description =>
      if truthy (VStr description) then OK (VStr (Str.strip description))
      else OK (VStr description)
  | None => OK VNone
  end.

Definition _get_query_params (method : string) (url_spec : URLSpec) : result pyval :=
  let handler := handler_class url_spec in
  parameters <- dict_item (query_params handler) method ;;
  ps <- mapM QueryParameter (values parameters) ;;
  OK (VList (map VDict ps)).

Definition _is_implemented (method : string) (handler : Handler) : result bool :=
  m <- getattr handler method ;;
  match m with
  | Unimplemented => OK false
  | Method _ _ _ => OK true
  end.

Fixpoint filterM {A : Type} (f : A -> result bool) (l : list A) : result (list A) :=
  match l with
  | [] => OK []
  | x :: rest =>
      b <- f x ;;
      ys <- filterM f rest ;;
      OK (if b then x :: ys else ys)
  end.

Definition _get_implemented_http_methods (url_spec : URLSpec) : result (list string) :=
  let handler := handler_class url_spec in
  filterM (fun method => _is_implemented method handler)
          (map Str.lower (SUPPORTED_METHODS handler)).

Definition SCHEMA_REF_TEMPLATE : string := "#/components/schemas/{model}".

Definition RequestBody (method : string) (url_spec : URLSpec) : result pyval :=
  let handler := handler_class url_spec in
  json_param <- dict_item (json_param handler) method ;;
  match json_param with
  | None => OK VNone
  | Some (_, rendered) =>
      OK (VDict [("content", VDict [("application/json", VDict [("schema", rendered)])])])
  end.

Definition dq : string := String (ascii_of_nat 34) EmptyString.
Definition nl : string := String (ascii_of_nat 10) EmptyString.

Definition TEMPLATE_RESPONSE_DESCRIPTION : string :=
  String.concat nl
    [ EmptyString;
      "    Include a `torn_open.models.ResponseModel` annotation with documentation to overwrite this default description.";
      EmptyString;
      "    Example";
      "    ```python";
      "    from torn_open.web import AnnotatedHandler";
      "    from torn_open.models import ResponseModel";
      EmptyString;
      "    class MyResponseModel(ResponseModel):";
      "        " ++ dq ++ dq ++ dq;
      "        Successfully retrieved my response model";
      "        " ++ dq ++ dq ++ dq;
      "        spam: str";
      "        ham: int";
      EmptyString;
      "    class MyHandler(AnnotatedHandler):";
      "        async def get(self) -> MyResponseModel:";
      "            pass";
      EmptyString;
      "    ```";
      "    " ]%string.

Definition get_success_response_description (response_model : option ResponseModel)
  : string :=
  let description := Str.strip TEMPLATE_RESPONSE_DESCRIPTION in
  match response_model with
  | Some model =>
      match model_doc model with
      | Some doc => if truthy (VStr doc) then Str.strip doc else description
      | None => description
      end
  | None => description
  end.

(** [for id, s in referenced_schemas.items(): components.schema(id, s)] *)
Fixpoint register_all (referenced_schemas : dict) (components : dict) : result dict :=
  match referenced_schemas with
  | [] => OK components
  | (referenced_schema_id, referenced_schema) :: rest =>
      components <- TornOpenComponents.schema components referenced_schema_id
                      referenced_schema ;;
      register_all rest components
  end.

(** Returns the schema together with the registry as the call leaves it.
    The schema library renders a dict; any other truthy rendering is outside
    the embedding. *)
Definition SuccessResponseModelSchema (response_model : option ResponseModel)
  (components : dict) : result (pyval * dict) :=
  let schema :=
    match response_model with
    | Some model => model_schema model
    | None => VNone
    end in
  if negb (truthy schema) then OK (schema, components)
  else
    match schema with
    | VDict d =>
        let referenced_schemas :=
          match dict_get d "definitions" with
          | Some r => r
          | None => VDict []
          end in
        let schema := VDict (dict_remove d "definitions") in
        if negb (truthy referenced_schemas) then OK (schema, components)
        else
          match referenced_schemas with
          | VDict refs =>
              components <- register_all refs components ;;
              OK (schema, components)
          | _ => Raise AttributeError    (* no [items] method *)
          end
    | _ => Raise NotModelled
    end.

Definition SuccessResponse (method : string) (url_spec : URLSpec) (components : dict)
  : result (pyval * dict) :=
  response_model <- dict_item (response_models (handler_class url_spec)) method ;;
  let description := get_success_response_description response_model in
  sc <- SuccessResponseModelSchema response_model components ;;
  OK (VDict [("description", VStr description);
             ("content", VDict [("application/json", VDict [("schema", fst sc)])])],
      snd sc).

Definition Responses (method : string) (url_spec : URLSpec) (components : dict)
  : result (pyval * dict) :=
  rc <- SuccessResponse method url_spec components ;;
  OK (VDict [("200", fst rc)], snd rc).

Definition Operation (method : string) (url_spec : URLSpec) (components : dict)
  : result (dict * dict) :=
  let tags := _get_tags method url_spec in
  let summary := _get_summary method url_spec in
  parameters <- _get_query_params method url_spec ;;
  description <- _get_operation_description method url_spec ;;
  requestBody <- RequestBody method url_spec ;;
  rc <- Responses method url_spec components ;;
  let operation :=
    [("tags", tags);
     ("summary", summary);
     ("parameters", parameters);
     ("description", description);
     ("requestBody", requestBody);
     ("responses", fst rc)] in
  OK (_clear_none_from_dict operation, snd rc).

(** [{method: Operation(method, url_spec, components) for method in
    implemented_methods}], built entry by entry. *)
Fixpoint build_operations (implemented_methods : list string) (url_spec : URLSpec)
  (operations : dict) (components : dict) : result (dict * dict) :=
  match implemented_methods with
  | [] => OK (operations, components)
  | method :: rest =>
      oc <- Operation method url_spec components ;;
      build_operations rest url_spec (dict_set operations method (VDict (fst oc))) (snd oc)
  end.

Definition Operations (url_spec : URLSpec) (components : dict) : result (dict * dict) :=
  implemented_methods <- _get_implemented_http_methods url_spec ;;
  build_operations implemented_methods url_spec [] components.

(** ** The plugin *)

Module TornOpenPlugin.

(** [path_helper] returns the path; [parameters] is extended in place, so
    it is returned as well. *)
Definition path_helper (url_spec : URLSpec) (parameters : list dict)
  : result (string * list dict) :=
  path <- get_path url_spec ;;
  path_parameters <- get_path_params url_spec ;;
  OK (path, parameters ++ path_parameters).

(** [operations.update] with the entries of [Operations(url_spec,
    self.spec.components)] *)
Definition operation_helper (operations : dict) (url_spec : URLSpec) (components : dict)
  : result (dict * dict) :=
  oc <- Operations url_spec components ;;
  OK (fold_left (fun d kv => dict_set d (fst kv) (snd kv)) (fst oc) operations, snd oc).

End TornOpenPlugin.

Unset Implicit Arguments.

(** ** Decorators *)

(** [tags]: the decorator stores the list of its arguments on [func] as
    [_openapi_tags] and returns a wrapper; [wraps] hands the wrapper the
    docstring and the attributes of [func].  The wrapper is a function of its
    own, so it is never the framework's stub. *)
Definition tags (tag_list : list pyval) (func : handler_method) : handler_method :=
  match func with
  | Unimplemented => Method None (Some (VList tag_list)) None
  | Method doc _ _openapi_summary => Method doc (Some (VList tag_list)) _openapi_summary
  end.

(** [summary]: the same with [_openapi_summary]. *)
Definition summary (summary_text : pyval) (func : handler_method) : handler_method :=
  match func with
  | Unimplemented => Method None None (Some summary_text)
  | Method doc _openapi_tags _ => Method doc _openapi_tags (Some summary_text)
  end.

(** ** Well-formed values *)

(** A dict has each key once, at every depth. *)
Fixpoint wf_val (v : pyval) : Prop :=
  match v with
  | VList l =>
      (fix all (xs : list pyval) : Prop :=
         match xs with
         | [] => True
         | x :: xs' => wf_val x /\ all xs'
         end) l
  | VDict d =>
      NoDup (keys d) /\
      (fix all (es : list (string * pyval)) : Prop :=
         match es with
         | [] => True
         | (_, x) :: es' => wf_val x /\ all es'
         end) d
  | _ => True
  end.

(** * Vocabulary of the statements *)

(** The values the compaction policy speaks of. *)
Definition no_empty_values (d : dict) : Prop :=
  forall k v, In (k, v) d -> v <> VNone /\ v <> VDict [] /\ v <> VList [].

(** A raw path with one [%s] slot in front of each piece of [tail], and the
    same path with the slots filled by [names]. *)
Fixpoint slots (tail : list string) : string :=
  match tail with
  | [] => EmptyString
  | piece :: rest => "%s" ++ piece ++ slots rest
  end.

Fixpoint fill (names tail : list string) : string :=
  match names, tail with
  | n :: names', piece :: rest => n ++ piece ++ fill names' rest
  | _, _ => EmptyString
  end.

Definition percent_free (s : string) : Prop := Str.mem "%" s = false.

Fixpoint all_chars (f : ascii -> bool) (s : string) : bool :=
  match s with
  | EmptyString => true
  | String c rest => f c && all_chars f rest
  end.

Definition braces (param : string) : string := "{" ++ param ++ "}".

(** Referenced schemas as the schema library renders them: each a dict,
    well-formed. *)
Definition dict_schemas (refs : dict) : Prop :=
  Forall (fun e => exists r, snd e = VDict r /\ wf_val (VDict r)) refs.

(** The schemas a response model refers to, under ["definitions"] of the
    schema it renders, and that schema without them. *)
Definition model_refs (response_model : option ResponseModel) : dict :=
  match response_model with
  | Some model =>
      match model_schema model with
      | VDict d =>
          match dict_get d "definitions" with
          | Some (VDict refs) => refs
          | _ => []
          end
      | _ => []
      end
  | None => []
  end.

Definition inline_schema (response_model : option ResponseModel) : pyval :=
  match response_model with
  | Some model =>
      match model_schema model with
      | VDict d => VDict (dict_remove d "definitions")
      | v => v
      end
  | None => VNone
  end.

(** The [responses] dict of an operation whose response model is
    [response_model]. *)
Definition response_dict (response_model : option ResponseModel) : pyval :=
  VDict [("200",
          VDict [("description", VStr (get_success_response_description response_model));
                 ("content",
                  VDict [("application/json",
                          VDict [("schema", inline_schema response_model)])])])].

(** The referenced schemas of the response model declared for [method]. *)
Definition referenced_schemas (url_spec : URLSpec) (method : string) : dict :=
  match dict_get (response_models (handler_class url_spec)) method with
  | Some response_model => model_refs response_model
  | None => []
  end.

(** * Sample data *)

(** *** A small application to run the functions on

    A handler for the route [/items/(?P<item_id>\d+)/?] that implements
    [get] alone, with two query parameters and a documented response model
    that refers to a nested model. *)

Definition limit_parameter : inspect.Parameter_ :=
  {| inspect.name := "limit";
     inspect.annotation := OptionalOf (Class C_int);
     inspect.default := Some (VInt 5) |}.

Definition labels_parameter : inspect.Parameter_ :=
  {| inspect.name := "labels";
     inspect.annotation := ListOf (Class C_str);
     inspect.default := None |}.

Definition item_id_parameter : inspect.Parameter_ :=
  {| inspect.name := "item_id";
     inspect.annotation := Class C_int;
     inspect.default := None |}.

Definition owner_schema : pyval :=
  VDict [("title", VStr "Owner"); ("type", VStr "object")].

Definition item_model : ResponseModel :=
  {| model_doc := Some "
    One item of the catalogue.
    ";
     model_schema :=
       VDict [("title", VStr "Item");
              ("type", VStr "object");
              ("properties",
               VDict [("owner", VDict [("$ref", VStr "#/components/schemas/Owner")])]);
              ("definitions", VDict [("Owner", owner_schema)])] |}.

Definition item_handler : Handler :=
  {| SUPPORTED_METHODS := ["GET"; "HEAD"; "POST"; "DELETE"; "PATCH"; "PUT"; "OPTIONS"];
     methods :=
       [("get", Method (Some "Fetch one item. ") (Some (VList [VStr "items"])) None);
        ("head", Unimplemented);
        ("post", Unimplemented);
        ("delete", Unimplemented);
        ("patch", Unimplemented);
        ("put", Unimplemented);
        ("options", Unimplemented)];
     path_params := [("item_id", item_id_parameter)];
     query_params := [("get", [("limit", limit_parameter); ("labels", labels_parameter)])];
     json_param := [("get", None)];
     response_models := [("get", Some item_model)] |}.

Definition item_route : URLSpec :=
  {| regex := {| groups := 1; groupindex := [("item_id", 1)] |};
     matcher_path := Some "/items/%s/?";
     handler_class := item_handler |}.

Definition item_get_operation : dict :=
  [("tags", VList [VStr "items"]);
   ("parameters",
    VList [VDict [("name", VStr "limit"); ("in", VStr "query"); ("required", VBool false);
                  ("schema", VDict [("type", VStr "integer"); ("default", VInt 5)])];
           VDict [("name", VStr "labels"); ("in", VStr "query"); ("required", VBool true);
                  ("schema", VDict [("type", VStr "array");
                                    ("items", VDict [("type", VStr "string")])])]]);
   ("description", VStr "Fetch one item.");
   ("responses",
    VDict [("200",
            VDict [("description", VStr "One item of the catalogue.");
                   ("content",
                    VDict [("application/json",
                            VDict [("schema",
                                    VDict [("title", VStr "Item");
                                           ("type", VStr "object");
                                           ("properties",
                                            VDict [("owner",
                                                    VDict [("$ref",
                                                            VStr "#/components/schemas/Owner")])])])])])])])].

Definition pet_object : pyval := VDict [("type", VStr "object")].
Definition pet_string : pyval := VDict [("type", VStr "string")].
Definition pet_registry : dict := [("Pet", pet_object)].

Definition flag_parameter : inspect.Parameter_ :=
  {| inspect.name := "verbose";
     inspect.annotation := Class C_bool;
     inspect.default := None |}.

Definition quiet_parameter : inspect.Parameter_ :=
  {| inspect.name := "quiet";
     inspect.annotation := OptionalOf (Class C_bool);
     inspect.default := None |}.

Definition ids_parameter : inspect.Parameter_ :=
  {| inspect.name := "ids";
     inspect.annotation := Class C_list;
     inspect.default := None |}.

Definition forward_parameter : inspect.Parameter_ :=
  {| inspect.name := "page";
     inspect.annotation := Plain "'Page'";
     inspect.default := None |}.

Definition Color : annot :=
  EnumClass "Color" [("RED", VStr "red"); ("GREEN", VStr "green"); ("CRIMSON", VStr "red")].

Definition color_parameter : inspect.Parameter_ :=
  {| inspect.name := "color";
     inspect.annotation := Color;
     inspect.default :=
       Some (VMember "Color"
               [("RED", VStr "red"); ("GREEN", VStr "green"); ("CRIMSON", VStr "red")]
               "GREEN") |}.

Definition color_schema : dict :=
  [("type", VStr "string");
   ("enum", VList [VStr "red"; VStr "green"; VStr "red"]);
   ("default", VStr "green")].

Definition shop_route (index : list (string * nat)) : URLSpec :=
  {| regex := {| groups := 2; groupindex := index |};
     matcher_path := Some "/shops/%s/items/%s/*";
     handler_class := item_handler |}.

Definition health_route : URLSpec :=
  {| regex := {| groups := 0; groupindex := [] |};
     matcher_path := Some "/health/*";
     handler_class := item_handler |}.

(** *** Further routes and parameters *)

(** A route under [/files/] whose pattern ends in one capture group without
    a name. *)
Definition files_route : URLSpec :=
  {| regex := {| groups := 1; groupindex := [] |};
     matcher_path := Some "/files/%s";
     handler_class := item_handler |}.

(** The route [/]. *)
Definition root_route : URLSpec :=
  {| regex := {| groups := 0; groupindex := [] |};
     matcher_path := Some "/";
     handler_class := item_handler |}.

Definition offset_parameter : inspect.Parameter_ :=
  {| inspect.name := "offset";
     inspect.annotation := Class C_int;
     inspect.default := Some (VInt 0) |}.

Definition flags_parameter : inspect.Parameter_ :=
  {| inspect.name := "flags";
     inspect.annotation := ListOf (Class C_bool);
     inspect.default := None |}.

Definition color_members : list (string * pyval) :=
  [("RED", VStr "red"); ("GREEN", VStr "green"); ("CRIMSON", VStr "red")].


Definition bad_color_parameter : inspect.Parameter_ :=
  {| inspect.name := "color";
     inspect.annotation := Color;
     inspect.default := Some (VStr "green") |}.

Definition empty_enum_parameter : inspect.Parameter_ :=
  {| inspect.name := "nothing";
     inspect.annotation := EnumClass "Nothing" [];
     inspect.default := None |}.

(** *** Further handlers *)

(** [item_handler] with [get] decorated by [summary] over [tags], a body
    parameter for [post], and [post] of its own without docstring, query
    parameters or response model. *)
Definition order_handler : Handler :=
  {| SUPPORTED_METHODS := ["GET"; "HEAD"; "POST"; "DELETE"; "PATCH"; "PUT"; "OPTIONS"];
     methods :=
       [("get", summary (VStr "One item")
                  (tags [VStr "items"; VStr "catalogue"] (Method (Some "  ") None None)));
        ("head", Unimplemented);
        ("post", Method None None None);
        ("delete", Unimplemented);
        ("patch", Unimplemented);
        ("put", Unimplemented);
        ("options", Unimplemented)];
     path_params := [("item_id", item_id_parameter); ("shop", quiet_parameter)];
     query_params := [("get", [("limit", limit_parameter)]); ("post", [])];
     json_param :=
       [("get", None);
        ("post", Some ("order", VDict [("$ref", VStr "#/components/schemas/Order")]))];
     response_models := [("get", Some item_model); ("post", None)] |}.

Definition order_route : URLSpec :=
  {| regex := {| groups := 2; groupindex := [("shop", 1); ("item_id", 2)] |};
     matcher_path := Some "/shops/%s/items/%s";
     handler_class := order_handler |}.

Definition order_post_operation : dict :=
  [("requestBody",
    VDict [("content",
            VDict [("application/json",
                    VDict [("schema",
                            VDict [("$ref", VStr "#/components/schemas/Order")])])])]);
   ("responses",
    VDict [("200",
            VDict [("description", VStr (Str.strip TEMPLATE_RESPONSE_DESCRIPTION));
                   ("content",
                    VDict [("application/json", VDict [("schema", VNone)])])])])].

(** A handler that lists a verb it has no attribute for. *)
Definition broken_handler : Handler :=
  {| SUPPORTED_METHODS := ["GET"; "PURGE"];
     methods := [("get", Unimplemented)];
     path_params := [];
     query_params := [];
     json_param := [];
     response_models := [] |}.

Definition broken_route : URLSpec :=
  {| regex := {| groups := 0; groupindex := [] |};
     matcher_path := Some "/broken";
     handler_class := broken_handler |}.

(** A handler that implements nothing. *)
Definition idle_handler : Handler :=
  {| SUPPORTED_METHODS := ["GET"; "POST"];
     methods := [("get", Unimplemented); ("post", Unimplemented)];
     path_params := [];
     query_params := [];
     json_param := [];
     response_models := [] |}.

Definition idle_route : URLSpec :=
  {| regex := {| groups := 0; groupindex := [] |};
     matcher_path := Some "/idle";
     handler_class := idle_handler |}.

(** * Properties *)

(** ** The error monad *)

Lemma bind_OK {A B : Type} (r : result A) (k : A -> result B) (b : B) :
  bind r k = OK b -> exists a, r = OK a /\ k a = OK b.
Proof.
  destruct r as [a|e]; simpl; intros H.
  - exists a. split; [reflexivity | exact H].
  - discriminate.
Qed.

Ltac inv_bind H :=
  let a := fresh "x" in
  let E := fresh "E" in
  apply bind_OK in H; destruct H as (a & E & H).

Ltac inv_OK H := inversion H; subst; clear H.

(** ** Dicts *)

Lemma in_clear_none (d : dict) (k : string) (v : pyval) :
  In (k, v) (_clear_none_from_dict d) <-> In (k, v) d /\ truthy v = true.
Proof. unfold _clear_none_from_dict. rewrite filter_In. reflexivity. Qed.

Lemma truthy_not_empty (v : pyval) :
  truthy v = true -> v <> VNone /\ v <> VDict [] /\ v <> VList [].
Proof.
  intros H. repeat split; intros ->; discriminate.
Qed.

Lemma clear_none_no_empty_values (d : dict) :
  no_empty_values (_clear_none_from_dict d).
Proof.
  intros k v H. apply in_clear_none in H. apply truthy_not_empty. tauto.
Qed.

Lemma keys_dict_set {V : Type} (d : list (string * V)) (k : string) (v : V) (x : string) :
  In x (keys (dict_set d k v)) <-> In x (keys d) \/ x = k.
Proof.
  induction d as [|[k' v'] rest IH]; simpl.
  - intuition auto.
  - destruct (String.eqb_spec k' k) as [->|Hne]; simpl.
    + intuition auto.
    + rewrite IH. intuition auto.
Qed.

Lemma NoDup_dict_set {V : Type} (d : list (string * V)) (k : string) (v : V) :
  NoDup (keys d) -> NoDup (keys (dict_set d k v)).
Proof.
  induction d as [|[k' v'] rest IH]; simpl; intros H.
  - constructor; [intros [] | constructor].
  - inversion H as [|? ? Hnotin Hrest]; subst.
    destruct (String.eqb_spec k' k) as [->|Hne]; simpl.
    + constructor; assumption.
    + constructor; [|apply IH; exact Hrest].
      intros Hin. apply keys_dict_set in Hin. destruct Hin as [Hin | ->]; auto.
Qed.

Lemma dict_get_set_same {V : Type} (d : list (string * V)) (k : string) (v : V) :
  dict_get (dict_set d k v) k = Some v.
Proof.
  induction d as [|[k' v'] rest IH]; simpl.
  - rewrite String.eqb_refl. reflexivity.
  - destruct (String.eqb_spec k' k) as [->|Hne]; simpl.
    + rewrite String.eqb_refl. reflexivity.
    + destruct (String.eqb_spec k' k); [contradiction | exact IH].
Qed.

Lemma dict_get_set_other {V : Type} (d : list (string * V)) (k k' : string) (v : V) :
  k' <> k -> dict_get (dict_set d k v) k' = dict_get d k'.
Proof.
  intros Hne. induction d as [|[k0 v0] rest IH]; simpl.
  - destruct (String.eqb_spec k k'); [congruence | reflexivity].
  - destruct (String.eqb_spec k0 k) as [->|Hne0]; simpl.
    + destruct (String.eqb_spec k k'); [congruence | reflexivity].
    + destruct (String.eqb_spec k0 k'); [reflexivity | exact IH].
Qed.

(** ** Parameter dicts *)

Lemma Parameter_OK (parameter : inspect.Parameter_) (param_type : string)
  (required : option bool) (d : dict) :
  Parameter_ parameter param_type required = OK d ->
  exists schema,
    Schema parameter = OK schema
    /\ d = [("name", VStr (inspect.name parameter));
            ("in", VStr param_type);
            ("required",
             VBool match required with
                   | Some r => r
                   | None => negb (is_optional (inspect.annotation parameter))
                   end);
            ("schema", VDict schema)].
Proof.
  unfold Parameter_. intros H. inv_bind H. inv_OK H.
  eexists. split; [eassumption | reflexivity].
Qed.

Lemma Schema_OK (parameter : inspect.Parameter_) (d : dict) :
  Schema parameter = OK d ->
  exists _type default items,
    _get_type (inspect.annotation parameter) = OK _type
    /\ _get_default_value_of_parameter parameter = OK default
    /\ Items (inspect.annotation parameter) = OK items
    /\ d = _clear_none_from_dict
             [("type", opt_str _type);
              ("enum", if is_enum (inspect.annotation parameter)
                       then VList (_unpack_enum (inspect.annotation parameter))
                       else VNone);
              ("default", default);
              ("items", items)].
Proof.
  unfold Schema. intros H. inv_bind H. inv_bind H. inv_bind H. inv_OK H.
  do 3 eexists. repeat split; eassumption.
Qed.

Lemma Operation_OK (method : string) (url_spec : URLSpec) (components : dict)
  (operation components' : dict) :
  Operation method url_spec components = OK (operation, components') ->
  exists parameters description requestBody responses,
    _get_query_params method url_spec = OK parameters
    /\ _get_operation_description method url_spec = OK description
    /\ RequestBody method url_spec = OK requestBody
    /\ Responses method url_spec components = OK (responses, components')
    /\ operation = _clear_none_from_dict
                     [("tags", _get_tags method url_spec);
                      ("summary", _get_summary method url_spec);
                      ("parameters", parameters);
                      ("description", description);
                      ("requestBody", requestBody);
                      ("responses", responses)].
Proof.
  unfold Operation. intros H. do 4 inv_bind H.
  match goal with Hr : Responses _ _ _ = OK ?rc |- _ => destruct rc as [r c] end.
  exists x, x0, x1, r. cbn [fst snd] in H.
  repeat split; try assumption; congruence.
Qed.

(** ** Type inference, case by case *)

Lemma _get_type_step (a : annot) :
  _get_type a = match _get_type_body a with
                | Return r => r
                | Again a' => _get_type a'
                end.
Proof.
  apply (_get_type_elim
           (fun a r => r = match _get_type_body a with
                           | Return r => r
                           | Again a' => _get_type a'
                           end)).
  - intros annotation r e _. rewrite e. reflexivity.
  - intros annotation a' e _ _. rewrite e. reflexivity.
Qed.

Lemma _get_type_Class (c : pyclass) :
  _get_type (Class c) = OK (types_mapping (Class c)).
Proof. rewrite _get_type_step. destruct c; reflexivity. Qed.

Lemma _get_type_OptionalOf (t : annot) : _get_type (OptionalOf t) = _get_type t.
Proof. rewrite _get_type_step. reflexivity. Qed.

Lemma _get_type_ListOf (t : annot) : _get_type (ListOf t) = OK (Some "array").
Proof. rewrite _get_type_step. simpl. apply _get_type_Class. Qed.

Lemma _get_type_EnumClass (name : string) (members : list (string * pyval)) :
  _get_type (EnumClass name members)
  = _get_type (_get_type_of_enum_value (EnumClass name members)).
Proof. rewrite _get_type_step. reflexivity. Qed.


Lemma _get_type_Plain (descr : string) : _get_type (Plain descr) = Raise AttributeError.
Proof. rewrite _get_type_step. reflexivity. Qed.

(** The only type names [_get_type] gives are those of [types_mapping]. *)
Lemma _get_type_range (a : annot) (s : string) :
  _get_type a = OK (Some s) -> In s ["string"; "integer"; "number"; "array"].
Proof.
  revert s.
  apply (_get_type_elim
           (fun a r => forall s, r = OK (Some s) ->
                                 In s ["string"; "integer"; "number"; "array"])).
  - intros annotation r e _ s ->.
    destruct annotation as [c| |t|t|n ms|n args|d]; simpl in e; try discriminate.
    + destruct c; inversion e; simpl; tauto.
    + inversion e; simpl; tauto.
  - intros annotation a' _ IH _ s H. exact (IH s H).
Qed.

Lemma _get_type_truthy (a : annot) (s : string) :
  _get_type a = OK (Some s) -> truthy (VStr s) = true.
Proof.
  intros H. apply _get_type_range in H. simpl in H.
  destruct H as [<-|[<-|[<-|[<-|[]]]]]; reflexivity.
Qed.

(** What [_get_type] does on the annotations it does not recognise: a class
    outside the mapping and a subscripted generic give no type. *)
Lemma _get_type_unrecognized (a : annot) :
  types_mapping a = None -> is_optional a = false -> is_enum a = false ->
  is_list a = false ->
  (is_type a = true \/ exists args, get_args a = OK args) ->
  _get_type a = OK None.
Proof.
  intros Hmap Hopt Henum Hlist Hshape. rewrite _get_type_step.
  unfold _get_type_body. rewrite Hmap, Hopt, Henum, Hlist.
  destruct Hshape as [Htype | (args & Hargs)].
  - rewrite Htype. reflexivity.
  - rewrite Hargs. destruct (is_type a); reflexivity.
Qed.

(** ** Array items, case by case *)

Lemma Items_not_array (a : annot) (t : option string) :
  _get_type a = OK t -> t <> Some "array" -> Items a = OK VNone.
Proof.
  intros H Hne. unfold Items. rewrite H. simpl.
  destruct t as [s|]; simpl; [|reflexivity].
  destruct (String.eqb_spec s "array") as [->|_]; [congruence | reflexivity].
Qed.

Lemma Items_ListOf (t : annot) (item_type : option string) :
  _get_type t = OK item_type ->
  Items (ListOf t) = OK (VDict [("type", opt_str item_type)]).
Proof.
  intros H. unfold Items. rewrite _get_type_ListOf. simpl.
  unfold _get_item_type. simpl. rewrite H. reflexivity.
Qed.

Lemma Items_Optional_ListOf (t : annot) (item_type : option string) :
  _get_type t = OK item_type ->
  Items (OptionalOf (ListOf t)) = OK (VDict [("type", opt_str item_type)]).
Proof.
  intros H. unfold Items. rewrite _get_type_OptionalOf, _get_type_ListOf. simpl.
  unfold _get_item_type. simpl. rewrite H. reflexivity.
Qed.

(** ** The functions at work *)

Example _get_type_ex1 : _get_type (OptionalOf (Class C_int)) = OK (Some "integer").
Proof. reflexivity. Qed.
Example items_ex1 : Items (ListOf (Class C_str)) = OK (VDict [("type", VStr "string")]).
Proof. reflexivity. Qed.
Example items_ex2 : Items (Class C_list) = Raise AttributeError.
Proof. reflexivity. Qed.
Example query_ex1 :
  QueryParameter {| inspect.name := "limit"; inspect.annotation := OptionalOf (Class C_int);
                    inspect.default := Some (VInt 5) |}
  = OK [("name", VStr "limit"); ("in", VStr "query"); ("required", VBool false);
        ("schema", VDict [("type", VStr "integer"); ("default", VInt 5)])].
Proof. reflexivity. Qed.
Example get_path_ex1 :
  get_path {| regex := {| groups := 2; groupindex := [("zeta", 1); ("alpha", 2)] |};
              matcher_path := Some "/items/%s/parts/%s/?";
              handler_class := Build_Handler [] [] [] [] [] [] |}
  = OK "/items/{zeta}/parts/{alpha}/?".
Proof. reflexivity. Qed.
Example get_path_ex2 :
  get_path {| regex := {| groups := 0; groupindex := [] |};
              matcher_path := Some "/health/*//";
              handler_class := Build_Handler [] [] [] [] [] [] |} = OK "/health".
Proof. reflexivity. Qed.
Example strip_ex : Str.strip "  a b  " = "a b".
Proof. reflexivity. Qed.

Example item_operation_runs :
  Operation "get" item_route [] = OK (item_get_operation, [("Owner", owner_schema)]).
Proof. vm_compute. reflexivity. Qed.

Example item_operations_run :
  Operations item_route []
  = OK ([("get", VDict item_get_operation)], [("Owner", owner_schema)]).
Proof. vm_compute. reflexivity. Qed.

Example item_path_runs : get_path item_route = OK "/items/{item_id}/?".
Proof. vm_compute. reflexivity. Qed.

Example item_path_helper_runs :
  TornOpenPlugin.path_helper item_route []
  = OK ("/items/{item_id}/?",
        [[("name", VStr "item_id"); ("in", VStr "path"); ("required", VBool true);
          ("schema", VDict [("type", VStr "integer")])]]).
Proof. vm_compute. reflexivity. Qed.

(** The boilerplate description, once stripped. *)
Example boilerplate_text :
  Str.strip TEMPLATE_RESPONSE_DESCRIPTION
  = String.concat nl
      [ "Include a `torn_open.models.ResponseModel` annotation with documentation to overwrite this default description.";
        EmptyString;
        "    Example";
        "    ```python";
        "    from torn_open.web import AnnotatedHandler";
        "    from torn_open.models import ResponseModel";
        EmptyString;
        "    class MyResponseModel(ResponseModel):";
        "        " ++ dq ++ dq ++ dq;
        "        Successfully retrieved my response model";
        "        " ++ dq ++ dq ++ dq;
        "        spam: str";
        "        ham: int";
        EmptyString;
        "    class MyHandler(AnnotatedHandler):";
        "        async def get(self) -> MyResponseModel:";
        "            pass";
        EmptyString;
        "    ```" ]%string.
Proof. vm_compute. reflexivity. Qed.

(** ** C1: the component registry *)

(** C1, as stated, fails: with ["Pet"] registered as an object schema,
    registering ["Pet"] again with a different schema does not overwrite;
    the base registry refuses the name and the call raises. *)
Lemma schema_conflict_raises :
  TornOpenComponents.schema pet_registry "Pet" pet_string
    = Raise DuplicateComponentNameError
  /\ ~ (exists schemas',
          TornOpenComponents.schema pet_registry "Pet" pet_string = OK schemas'
          /\ dict_get schemas' "Pet" = Some pet_string).
Proof.
  split; [reflexivity |].
  intros (schemas' & H & _). discriminate H.
Qed.

(** C1 (amended): registering under an identifier whose stored schema
    equals ([==]) the new one leaves the registry as it is; registering
    under an existing identifier with a different schema raises
    [DuplicateComponentNameError] in the base registry, and nothing is
    written; registering a dict under a new identifier stores it there and
    leaves every other entry alone. *)
Theorem schema_register (schemas : dict) (component_id : string) (component : pyval) :
  (forall stored,
      dict_get schemas component_id = Some stored ->
      py_eq stored component = true ->
      TornOpenComponents.schema schemas component_id component = OK schemas)
  /\ (forall stored,
      dict_get schemas component_id = Some stored ->
      py_eq stored component = false ->
      TornOpenComponents.schema schemas component_id component
        = Raise DuplicateComponentNameError)
  /\ (forall d,
      dict_get schemas component_id = None ->
      component = VDict d ->
      exists schemas',
        TornOpenComponents.schema schemas component_id component = OK schemas'
        /\ dict_get schemas' component_id = Some component
        /\ forall other, other <> component_id ->
             dict_get schemas' other = dict_get schemas other).
Proof.
  unfold TornOpenComponents.schema, TornOpenComponents.get, Components.schema.
  repeat split.
  - intros stored Hget Heq. rewrite Hget, Heq. reflexivity.
  - intros stored Hget Heq. rewrite Hget, Heq. reflexivity.
  - intros d Hget ->. rewrite Hget. simpl.
    exists (dict_set schemas component_id (VDict d)).
    split; [destruct d; reflexivity |].
    split; [apply dict_get_set_same |].
    intros other Hne. apply dict_get_set_other. exact Hne.
Qed.

Lemma schema_register_witness :
  TornOpenComponents.schema pet_registry "Pet" pet_object = OK pet_registry
  /\ TornOpenComponents.schema pet_registry "Pet" pet_string
     = Raise DuplicateComponentNameError
  /\ exists schemas',
       TornOpenComponents.schema pet_registry "Owner" pet_object = OK schemas'
       /\ dict_get schemas' "Owner" = Some pet_object
       /\ forall other, other <> "Owner" ->
            dict_get schemas' other = dict_get pet_registry other.
Proof.
  split; [|split].
  - apply (proj1 (schema_register pet_registry "Pet" pet_object) pet_object);
      reflexivity.
  - apply (proj1 (proj2 (schema_register pet_registry "Pet" pet_string)) pet_object);
      reflexivity.
  - apply (proj2 (proj2 (schema_register pet_registry "Owner" pet_object))
             [("type", VStr "object")]); reflexivity.
Defined.

(** ** C2: compaction *)

(** C2, as stated, fails: the parameter dict of a query parameter
    annotated [bool] without default carries the key ["schema"] with the
    empty dict as its value. *)
Lemma parameter_dict_keeps_empty_schema :
  exists d,
    QueryParameter flag_parameter = OK d
    /\ In ("schema", VDict []) d
    /\ ~ no_empty_values d.
Proof.
  eexists. split; [reflexivity |].
  split; [simpl; tauto |].
  intros H. destruct (H "schema" (VDict [])) as (_ & Hne & _).
  - simpl. tauto.
  - apply Hne. reflexivity.
Qed.

(** C2 (amended): the dicts returned by [Schema] and by [Operation], the
    two functions that pass their result through [_clear_none_from_dict],
    hold no key whose value is [None], an empty dict or an empty list; more
    than that, every value they hold is truthy. *)
Theorem compacted_dicts_no_empty_values :
  (forall parameter d,
      Schema parameter = OK d ->
      no_empty_values d /\ Forall (fun kv => truthy (snd kv) = true) d)
  /\ (forall method url_spec components operation components',
      Operation method url_spec components = OK (operation, components') ->
      no_empty_values operation
      /\ Forall (fun kv => truthy (snd kv) = true) operation).
Proof.
  assert (Hall : forall d,
             Forall (fun kv => truthy (snd kv) = true) (_clear_none_from_dict d)).
  { intros d. apply Forall_forall. intros [k v] Hin.
    apply in_clear_none in Hin. simpl. tauto. }
  split.
  - intros parameter d H. apply Schema_OK in H.
    destruct H as (t & dflt & items & _ & _ & _ & ->).
    split; [apply clear_none_no_empty_values | apply Hall].
  - intros method url_spec components operation components' H.
    apply Operation_OK in H.
    destruct H as (ps & descr & body & resp & _ & _ & _ & _ & ->).
    split; [apply clear_none_no_empty_values | apply Hall].
Qed.

Lemma compacted_dicts_no_empty_values_witness :
  (no_empty_values [("type", VStr "integer"); ("default", VInt 5)]
   /\ Forall (fun kv => truthy (snd kv) = true)
        [("type", VStr "integer"); ("default", VInt 5)])
  /\ (no_empty_values item_get_operation
      /\ Forall (fun kv => truthy (snd kv) = true) item_get_operation).
Proof.
  split.
  - apply (proj1 compacted_dicts_no_empty_values limit_parameter). reflexivity.
  - apply (proj2 compacted_dicts_no_empty_values "get" item_route []
             item_get_operation [("Owner", owner_schema)]).
    vm_compute. reflexivity.
Defined.

(** ** C3: path translation *)

Lemma append_assoc (a b c : string) : ((a ++ b) ++ c = a ++ (b ++ c))%string.
Proof. induction a as [|x a IH]; simpl; [reflexivity | rewrite IH; reflexivity]. Qed.

Lemma append_empty_r (a : string) : (a ++ EmptyString = a)%string.
Proof. induction a as [|x a IH]; simpl; [reflexivity | rewrite IH; reflexivity]. Qed.

Lemma format_literal (p rest : string) (args : list string) :
  percent_free p ->
  Str.format (p ++ rest) args = (r <- Str.format rest args ;; OK (p ++ r)%string).
Proof.
  unfold percent_free. induction p as [|c p IH]; simpl; intros H.
  - destruct (Str.format rest args); reflexivity.
  - apply orb_false_iff in H. destruct H as [Hc Hp].
    rewrite Hc. simpl. rewrite (IH Hp).
    destruct (Str.format rest args); reflexivity.
Qed.

Lemma format_slots (tail names : list string) :
  Forall percent_free tail ->
  List.length names = List.length tail ->
  Str.format (slots tail) names = OK (fill names tail).
Proof.
  intros Hfree. revert names.
  induction Hfree as [|piece rest Hpiece Hrest IH]; intros names Hlen.
  - destruct names; [reflexivity | discriminate].
  - destruct names as [|n names']; [discriminate |].
    injection Hlen as Hlen.
    change (slots (piece :: rest)) with ("%s" ++ (piece ++ slots rest))%string.
    cbn [Str.format append Ascii.eqb Bool.eqb negb].
    rewrite (format_literal piece (slots rest) names' Hpiece), (IH names' Hlen).
    reflexivity.
Qed.

Lemma format_template (head : string) (tail names : list string) :
  Forall percent_free (head :: tail) ->
  List.length names = List.length tail ->
  Str.format (head ++ slots tail) names = OK (head ++ fill names tail)%string.
Proof.
  intros Hfree Hlen. inversion Hfree as [|? ? Hhead Htail]; subst.
  rewrite (format_literal _ _ _ Hhead), (format_slots _ _ Htail Hlen). reflexivity.
Qed.

(** *** Sorting by capture-group index *)

Section SortedFacts.
Variable A : Type.
Variable key : A -> nat.

Let le_key (x y : A) : Prop := key x <= key y.

Lemma insert_sorted_perm (x : A) (l : list A) :
  Permutation (insert_sorted key x l) (x :: l).
Proof.
  induction l as [|y rest IH]; simpl.
  - apply Permutation_refl.
  - destruct (Nat.leb (key x) (key y)).
    + apply Permutation_refl.
    + apply perm_trans with (y :: x :: rest).
      * apply perm_skip. exact IH.
      * apply perm_swap.
Qed.

Lemma sorted_perm (l : list A) : Permutation (sorted key l) l.
Proof.
  induction l as [|x rest IH]; simpl.
  - apply perm_nil.
  - apply perm_trans with (x :: sorted key rest).
    + apply insert_sorted_perm.
    + apply perm_skip. exact IH.
Qed.

Lemma insert_sorted_ordered (x : A) (l : list A) :
  StronglySorted le_key l -> StronglySorted le_key (insert_sorted key x l).
Proof.
  induction l as [|y rest IH]; simpl; intros Hs.
  - constructor; constructor.
  - inversion Hs as [|? ? Hrest Hall]; subst.
    destruct (Nat.leb_spec (key x) (key y)) as [Hle|Hgt].
    + constructor; [exact Hs |].
      constructor; [exact Hle |].
      apply Forall_impl with (P := le_key y); [|exact Hall].
      unfold le_key. intros z Hz. lia.
    + constructor; [apply IH; exact Hrest |].
      apply Forall_forall. intros z Hz.
      apply (Permutation_in _ (insert_sorted_perm x rest)) in Hz.
      destruct Hz as [<-|Hz].
      * unfold le_key. lia.
      * rewrite Forall_forall in Hall. apply Hall. exact Hz.
Qed.

Lemma sorted_ordered (l : list A) : StronglySorted le_key (sorted key l).
Proof.
  induction l as [|x rest IH]; simpl.
  - constructor.
  - apply insert_sorted_ordered. exact IH.
Qed.
End SortedFacts.

Lemma dict_set_fresh {V : Type} (d : list (string * V)) (k : string) (v : V) :
  ~ In k (keys d) -> dict_set d k v = d ++ [(k, v)].
Proof.
  induction d as [|[k' v'] rest IH]; simpl; intros Hnot.
  - reflexivity.
  - destruct (String.eqb_spec k' k) as [->|Hne].
    + exfalso. apply Hnot. left. reflexivity.
    + rewrite IH; [reflexivity |]. intros Hin. apply Hnot. right. exact Hin.
Qed.

Lemma fold_dict_set_fresh {V : Type} (items acc : list (string * V)) :
  NoDup (keys (acc ++ items)) ->
  fold_left (fun d kv => dict_set d (fst kv) (snd kv)) items acc = acc ++ items.
Proof.
  revert acc. induction items as [|[k v] rest IH]; intros acc Hnd; simpl.
  - rewrite app_nil_r. reflexivity.
  - assert (Hfresh : ~ In k (keys acc)).
    { unfold keys in *. rewrite map_app in Hnd. simpl in Hnd.
      apply NoDup_remove_2 in Hnd. intros Hin. apply Hnd.
      apply in_or_app. left. exact Hin. }
    rewrite (dict_set_fresh _ _ v Hfresh).
    rewrite IH; rewrite <- app_assoc; simpl; [reflexivity | exact Hnd].
Qed.

Lemma dict_of_items_fresh {V : Type} (items : list (string * V)) :
  NoDup (keys items) -> dict_of_items items = items.
Proof. intros H. unfold dict_of_items. apply (fold_dict_set_fresh items []). exact H. Qed.

Lemma extract_and_sort_names (url_spec : URLSpec) :
  NoDup (keys (groupindex (regex url_spec))) ->
  extract_and_sort_path_path_params url_spec
  = map braces (keys (sorted (fun item => snd item) (groupindex (regex url_spec)))).
Proof.
  intros Hnd. unfold extract_and_sort_path_path_params.
  rewrite dict_of_items_fresh; [reflexivity |].
  apply (Permutation_NoDup (l := keys (groupindex (regex url_spec)))); [|exact Hnd].
  unfold keys. apply Permutation_map. apply Permutation_sym. apply sorted_perm.
Qed.

(** *** Stripping the tail *)

Lemma rstrip_by_spec (drop : ascii -> bool) (s : string) :
  exists suffix,
    s = (Str.rstrip_by drop s ++ suffix)%string
    /\ all_chars drop suffix = true
    /\ forall r c, Str.rstrip_by drop s = (r ++ String c EmptyString)%string -> drop c = false.
Proof.
  induction s as [|c rest (suffix & Heq & Hall & Hlast)].
  - exists EmptyString. repeat split. intros [|x r] c H; discriminate H.
  - simpl. destruct (Str.rstrip_by drop rest) as [|k kept] eqn:Hrest.
    + destruct (drop c) eqn:Hc.
      * exists (String c rest). repeat split.
        -- simpl. rewrite Hc. simpl in Heq. rewrite Heq. exact Hall.
        -- intros [|x r] c' H; discriminate H.
      * exists suffix. repeat split.
        -- simpl. simpl in Heq. rewrite <- Heq. reflexivity.
        -- exact Hall.
        -- intros [|x r] c' H; simpl in H.
           ++ injection H as ->. exact Hc.
           ++ injection H as _ H. destruct r; discriminate H.
    + exists suffix. repeat split.
      * simpl. simpl in Heq. rewrite <- Heq. reflexivity.
      * exact Hall.
      * intros [|x r] c' H; simpl in H.
        -- discriminate H.
        -- injection H as _ H. apply (Hlast r c'). exact H.
Qed.

Lemma get_path_no_groups (url_spec : URLSpec) (path : string) :
  groups (regex url_spec) = 0 ->
  matcher_path url_spec = Some path ->
  get_path url_spec = OK (Str.rstrip path "/*").
Proof.
  intros Hg Hp. unfold get_path, replace_path_with_openapi_placeholders.
  rewrite Hg, Hp. reflexivity.
Qed.

Lemma get_path_groups (url_spec : URLSpec) (head : string) (tail : list string) :
  groups (regex url_spec) <> 0 ->
  NoDup (keys (groupindex (regex url_spec))) ->
  matcher_path url_spec = Some (head ++ slots tail)%string ->
  Forall percent_free (head :: tail) ->
  List.length tail = List.length (groupindex (regex url_spec)) ->
  get_path url_spec
  = OK (Str.rstrip
          (head ++ fill (map braces
                           (keys (sorted (fun item => snd item)
                                    (groupindex (regex url_spec))))) tail)
          "/*").
Proof.
  intros Hg Hnd Hp Hfree Hlen.
  unfold get_path, replace_path_with_openapi_placeholders.
  apply Nat.eqb_neq in Hg. rewrite Hg, Hp.
  rewrite (extract_and_sort_names url_spec Hnd).
  rewrite (format_template head tail _ Hfree); [reflexivity |].
  unfold keys. rewrite !length_map.
  rewrite (Permutation_length (sorted_perm _ (fun item => snd item) _)).
  symmetry. exact Hlen.
Qed.

(** C3: without capture groups the path is the raw path with its trailing
    ['/'] and ['*'] characters stripped; with named groups each [%s] slot of
    the raw path receives [{name}], the names being taken in the order of
    their capture-group index, so that of two groups the one with the lower
    index comes first whatever their names and whatever the order in which
    [groupindex] lists them. *)
Theorem get_path_translation :
  (forall url_spec path,
      groups (regex url_spec) = 0 ->
      matcher_path url_spec = Some path ->
      get_path url_spec = OK (Str.rstrip path "/*")
      /\ exists suffix,
           path = (Str.rstrip path "/*" ++ suffix)%string
           /\ all_chars (fun c => Str.mem c "/*") suffix = true
           /\ forall r c, Str.rstrip path "/*" = (r ++ String c EmptyString)%string ->
                          Str.mem c "/*" = false)
  /\ (forall url_spec head tail,
      groups (regex url_spec) <> 0 ->
      NoDup (keys (groupindex (regex url_spec))) ->
      matcher_path url_spec = Some (head ++ slots tail)%string ->
      Forall percent_free (head :: tail) ->
      List.length tail = List.length (groupindex (regex url_spec)) ->
      exists ordered,
        Permutation ordered (groupindex (regex url_spec))
        /\ StronglySorted (fun x y => snd x <= snd y) ordered
        /\ get_path url_spec
           = OK (Str.rstrip (head ++ fill (map braces (keys ordered)) tail) "/*"))
  /\ (forall url_spec a b ia ib p0 p1 p2,
      groups (regex url_spec) <> 0 ->
      a <> b ->
      ia < ib ->
      groupindex (regex url_spec) = [(a, ia); (b, ib)]
      \/ groupindex (regex url_spec) = [(b, ib); (a, ia)] ->
      matcher_path url_spec = Some (p0 ++ "%s" ++ p1 ++ "%s" ++ p2)%string ->
      percent_free p0 -> percent_free p1 -> percent_free p2 ->
      get_path url_spec
      = OK (Str.rstrip (p0 ++ braces a ++ p1 ++ braces b ++ p2) "/*")).
Proof.
  split; [|split].
  - intros url_spec path Hg Hp. split; [apply get_path_no_groups; assumption |].
    apply rstrip_by_spec.
  - intros url_spec head tail Hg Hnd Hp Hfree Hlen.
    exists (sorted (fun item => snd item) (groupindex (regex url_spec))).
    split; [apply sorted_perm |].
    split; [apply (sorted_ordered _ (fun item => snd item)) |].
    apply get_path_groups; assumption.
  - intros url_spec a b ia ib p0 p1 p2 Hg Hab Hlt Hgi Hp H0 H1 H2.
    assert (Hsorted : sorted (fun item : string * nat => snd item)
                        (groupindex (regex url_spec)) = [(a, ia); (b, ib)]).
    { destruct Hgi as [-> | ->]; simpl.
      - destruct (Nat.leb_spec ia ib); [reflexivity | lia].
      - destruct (Nat.leb_spec ib ia); [lia | reflexivity]. }
    rewrite (get_path_groups url_spec p0 [p1; p2]).
    + rewrite Hsorted. simpl. rewrite append_empty_r. reflexivity.
    + exact Hg.
    + destruct Hgi as [-> | ->]; simpl;
        (constructor; [simpl; intros [H|[]]; congruence |]);
        (constructor; [simpl; tauto | constructor]).
    + rewrite Hp. simpl. rewrite append_empty_r. reflexivity.
    + repeat constructor; assumption.
    + destruct Hgi as [-> | ->]; reflexivity.
Qed.

Lemma get_path_translation_witness :
  get_path health_route = OK "/health"
  /\ get_path (shop_route [("zone", 1); ("article", 2)])
     = OK "/shops/{zone}/items/{article}"
  /\ get_path (shop_route [("article", 2); ("zone", 1)])
     = OK "/shops/{zone}/items/{article}"
  /\ exists ordered,
       Permutation ordered [("article", 2); ("zone", 1)]
       /\ StronglySorted (fun x y => snd x <= snd y) ordered
       /\ get_path (shop_route [("article", 2); ("zone", 1)])
          = OK (Str.rstrip ("/shops/" ++ fill (map braces (keys ordered)) ["/items/"; "/*"])
                  "/*").
Proof.
  split; [|split; [|split]].
  - apply (proj1 (proj1 get_path_translation health_route "/health/*" eq_refl eq_refl)).
  - apply (proj2 (proj2 get_path_translation)
             (shop_route [("zone", 1); ("article", 2)]) "zone" "article" 1 2
             "/shops/" "/items/" "/*");
      simpl; try reflexivity; try lia; try discriminate; auto.
  - apply (proj2 (proj2 get_path_translation)
             (shop_route [("article", 2); ("zone", 1)]) "zone" "article" 1 2
             "/shops/" "/items/" "/*");
      simpl; try reflexivity; try lia; try discriminate; auto.
  - apply (proj1 (proj2 get_path_translation)
             (shop_route [("article", 2); ("zone", 1)]) "/shops/" ["/items/"; "/*"]).
    + simpl. discriminate.
    + simpl. constructor; [simpl; intros [H|[]]; discriminate H |].
      constructor; [simpl; tauto | constructor].
    + reflexivity.
    + repeat constructor.
    + reflexivity.
Defined.

(** ** C4: query parameters *)

(** C4: a query parameter annotated [Optional[int]] with default [5] is
    described by exactly name, ["in": "query"], ["required": false] and the
    schema [{"type": "integer", "default": 5}]; and whenever a query
    parameter is described at all, its ["required"] entry is [true] exactly
    when the annotation is not Optional. *)
Theorem QueryParameter_required :
  (forall name,
      QueryParameter {| inspect.name := name;
                        inspect.annotation := OptionalOf (Class C_int);
                        inspect.default := Some (VInt 5) |}
      = OK [("name", VStr name);
            ("in", VStr "query");
            ("required", VBool false);
            ("schema", VDict [("type", VStr "integer"); ("default", VInt 5)])])
  /\ (forall parameter d,
      QueryParameter parameter = OK d ->
      exists required,
        dict_get d "required" = Some (VBool required)
        /\ (required = true <-> is_optional (inspect.annotation parameter) = false)).
Proof.
  split.
  - intros name. reflexivity.
  - intros parameter d H. unfold QueryParameter in H.
    apply Parameter_OK in H. destruct H as (schema & _ & ->).
    exists (negb (is_optional (inspect.annotation parameter))).
    split; [reflexivity |].
    destruct (is_optional (inspect.annotation parameter)); simpl; intuition congruence.
Qed.

Lemma QueryParameter_required_witness :
  exists required,
    dict_get [("name", VStr "labels"); ("in", VStr "query"); ("required", VBool true);
              ("schema", VDict [("type", VStr "array");
                                ("items", VDict [("type", VStr "string")])])]
             "required" = Some (VBool required)
    /\ (required = true <-> is_optional (inspect.annotation labels_parameter) = false).
Proof.
  apply (proj2 QueryParameter_required labels_parameter). reflexivity.
Defined.

(** ** C5: array items *)

(** C5: the claim gives [List[str]] the items [{"type": "string"}], reads
    the item type of [Optional[List[T]]] through both layers, and in every
    other case leaves the item type absent.  The first two hold
    ([Items_ListOf], [Items_Optional_ListOf]); the last does not hold of the
    code: for the bare [list], which [types_mapping] names an array,
    [_get_item_type] reads [__args__] off a class that has none, and [Items]
    and [Schema] raise instead of giving an absent item type. *)
Theorem Items_bare_list_raises :
  _get_type (Class C_list) = OK (Some "array")
  /\ _get_item_type (Class C_list) = Raise AttributeError
  /\ Items (Class C_list) = Raise AttributeError
  /\ Schema ids_parameter = Raise AttributeError
  /\ QueryParameter ids_parameter = Raise AttributeError.
Proof. repeat split; reflexivity. Qed.

(** ** C6: enumerated types *)

Lemma dict_get_schema_type (t default items enum : pyval) :
  dict_get (_clear_none_from_dict
              [("type", t); ("enum", enum); ("default", default); ("items", items)])
           "type"
  = if truthy t then Some t else None.
Proof.
  unfold _clear_none_from_dict. simpl.
  destruct (truthy t), (truthy enum), (truthy default), (truthy items); reflexivity.
Qed.

Lemma dict_get_schema_enum (t default items enum : pyval) :
  dict_get (_clear_none_from_dict
              [("type", t); ("enum", enum); ("default", default); ("items", items)])
           "enum"
  = if truthy enum then Some enum else None.
Proof.
  unfold _clear_none_from_dict. simpl.
  destruct (truthy t), (truthy enum), (truthy default), (truthy items); reflexivity.
Qed.

(** C6: for a parameter annotated with an enumeration, the inferred type
    is the one inferred from the type of the first member's value, so the
    string type for string values, and the ["enum"] entry lists the values of
    all members in declaration order. *)
Theorem Schema_enum (parameter : inspect.Parameter_) (name first_name : string)
  (first_value : pyval) (others : list (string * pyval)) (d : dict) :
  inspect.annotation parameter = EnumClass name ((first_name, first_value) :: others) ->
  Schema parameter = OK d ->
  _get_type (inspect.annotation parameter) = _get_type (type_of first_value)
  /\ (forall t, _get_type (type_of first_value) = OK t ->
                dict_get d "type" = option_map VStr t)
  /\ (forall s, first_value = VStr s -> dict_get d "type" = Some (VStr "string"))
  /\ dict_get d "enum" = Some (VList (first_value :: values others)).
Proof.
  intros Hann HS.
  assert (Hty : _get_type (inspect.annotation parameter)
                = _get_type (type_of first_value)).
  { rewrite Hann, _get_type_EnumClass. reflexivity. }
  apply Schema_OK in HS.
  destruct HS as (_type & dflt & items & Ht & _ & _ & ->).
  assert (Htype : forall t, _get_type (type_of first_value) = OK t ->
                            dict_get (_clear_none_from_dict
                                        [("type", opt_str _type);
                                         ("enum",
                                          if is_enum (inspect.annotation parameter)
                                          then VList (_unpack_enum
                                                        (inspect.annotation parameter))
                                          else VNone);
                                         ("default", dflt);
                                         ("items", items)]) "type"
                            = option_map VStr t).
  { intros t Hv. rewrite Hty, Hv in Ht. inversion Ht; subst _type.
    rewrite dict_get_schema_type. destruct t as [s|]; simpl; [|reflexivity].
    apply _get_type_truthy in Hv. simpl in Hv. rewrite Hv. reflexivity. }
  split; [exact Hty |].
  split; [exact Htype |].
  split.
  - intros s ->. apply (Htype (Some "string")). apply _get_type_Class.
  - rewrite dict_get_schema_enum, Hann. reflexivity.
Qed.

Lemma Schema_enum_witness :
  Schema color_parameter = OK color_schema
  /\ _get_type Color = _get_type (Class C_str)
  /\ dict_get color_schema "type" = Some (VStr "string")
  /\ dict_get color_schema "enum"
     = Some (VList [VStr "red"; VStr "green"; VStr "red"]).
Proof.
  assert (HS : Schema color_parameter = OK color_schema) by reflexivity.
  destruct (Schema_enum color_parameter "Color" "RED" (VStr "red")
              [("GREEN", VStr "green"); ("CRIMSON", VStr "red")] color_schema
              eq_refl HS) as (H1 & _ & H3 & H4).
  split; [exact HS |].
  split; [exact H1 |].
  split; [exact (H3 "red" eq_refl) | exact H4].
Defined.

(** ** C7: the verbs of a route *)

Lemma filterM_In {A : Type} (f : A -> result bool) (l ys : list A) :
  filterM f l = OK ys ->
  forall x, In x ys <-> In x l /\ f x = OK true.
Proof.
  revert ys. induction l as [|a rest IH]; simpl; intros ys H x.
  - inv_OK H. simpl. tauto.
  - inv_bind H. inv_bind H. inv_OK H.
    specialize (IH _ E0 x).
    destruct x0; simpl; rewrite IH; split.
    + intros [<- | Hin]; [split; [left; reflexivity | exact E] | tauto].
    + intros [[<- | Hin] Hf]; [left; reflexivity | right; tauto].
    + tauto.
    + intros [[<- | Hin] Hf]; [congruence | tauto].
Qed.

Lemma _is_implemented_true (method : string) (handler : Handler) :
  _is_implemented method handler = OK true
  <-> exists doc tags summary, getattr handler method = OK (Method doc tags summary).
Proof.
  unfold _is_implemented. destruct (getattr handler method) as [[|doc tags summary]|e];
    simpl; split.
  - discriminate.
  - intros (doc & tags & summary & H). discriminate H.
  - intros _. exists doc, tags, summary. reflexivity.
  - reflexivity.
  - discriminate.
  - intros (doc & tags & summary & H). discriminate H.
Qed.

Lemma build_operations_keys (implemented_methods : list string) (url_spec : URLSpec)
  (acc components operations components' : dict) :
  build_operations implemented_methods url_spec acc components
    = OK (operations, components') ->
  (NoDup (keys acc) -> NoDup (keys operations))
  /\ forall k, In k (keys operations) <-> In k (keys acc) \/ In k implemented_methods.
Proof.
  revert acc components.
  induction implemented_methods as [|m rest IH]; simpl; intros acc components H.
  - inv_OK H. split; [tauto | intros k; tauto].
  - inv_bind H. apply IH in H. destruct H as [Hnd Hin]. split.
    + intros Hacc. apply Hnd. apply NoDup_dict_set. exact Hacc.
    + intros k. rewrite Hin, keys_dict_set. intuition auto.
Qed.

Lemma NoDup_singleton {A : Type} (l : list A) (a : A) :
  NoDup l -> (forall x, In x l <-> x = a) -> l = [a].
Proof.
  intros Hnd Hin. destruct l as [|x rest].
  - exfalso. apply (proj2 (Hin a) eq_refl).
  - assert (x = a) as -> by (apply Hin; left; reflexivity).
    destruct rest as [|y rest']; [reflexivity |].
    assert (y = a) as -> by (apply Hin; right; left; reflexivity).
    inversion Hnd as [|? ? Hnot _]; subst. exfalso. apply Hnot. left. reflexivity.
Qed.

(** C7: the operations of a route are keyed by exactly the verbs of
    [SUPPORTED_METHODS], in lower case, whose handler method is not the
    framework's stub, each once; a handler whose only method of its own is
    [get] has the single key ["get"]. *)
Theorem Operations_keys (url_spec : URLSpec) (components operations components' : dict) :
  Operations url_spec components = OK (operations, components') ->
  NoDup (keys operations)
  /\ (forall verb,
        In verb (keys operations)
        <-> In verb (map Str.lower (SUPPORTED_METHODS (handler_class url_spec)))
            /\ exists doc tags summary,
                 getattr (handler_class url_spec) verb = OK (Method doc tags summary))
  /\ ((forall verb,
         In verb (map Str.lower (SUPPORTED_METHODS (handler_class url_spec))) ->
         verb <> "get" -> getattr (handler_class url_spec) verb = OK Unimplemented) ->
      In "get" (map Str.lower (SUPPORTED_METHODS (handler_class url_spec))) ->
      (exists doc tags summary,
          getattr (handler_class url_spec) "get" = OK (Method doc tags summary)) ->
      keys operations = ["get"]).
Proof.
  unfold Operations. intros H. inv_bind H.
  unfold _get_implemented_http_methods in E.
  pose proof (filterM_In _ _ _ E) as Himpl.
  apply build_operations_keys in H. destruct H as [Hnd Hin].
  assert (Hkeys : forall verb,
             In verb (keys operations)
             <-> In verb (map Str.lower (SUPPORTED_METHODS (handler_class url_spec)))
                 /\ exists doc tags summary,
                      getattr (handler_class url_spec) verb
                      = OK (Method doc tags summary)).
  { intros verb. rewrite Hin, Himpl, _is_implemented_true. simpl. tauto. }
  split; [apply Hnd; constructor |].
  split; [exact Hkeys |].
  intros Hstub Hget Hown. apply NoDup_singleton; [apply Hnd; constructor |].
  intros verb. rewrite Hkeys. split.
  - intros [Hsup (doc & tags & summary & Hm)].
    destruct (string_dec verb "get") as [-> | Hne]; [reflexivity |].
    rewrite (Hstub verb Hsup Hne) in Hm. discriminate Hm.
  - intros ->. split; assumption.
Qed.

Lemma Operations_keys_witness :
  keys [("get", VDict item_get_operation)] = ["get"].
Proof.
  refine (proj2 (proj2 (Operations_keys item_route [] [("get", VDict item_get_operation)]
                          [("Owner", owner_schema)] _)) _ _ _).
  - vm_compute. reflexivity.
  - simpl. intros verb [<-|[<-|[<-|[<-|[<-|[<-|[<-|[]]]]]]]] Hne;
      try reflexivity; exfalso; apply Hne; reflexivity.
  - simpl. tauto.
  - do 3 eexists. reflexivity.
Defined.

(** ** C8: the success response *)

Lemma dict_get_operation_responses (tags summary parameters description requestBody
                                      responses : pyval) :
  truthy responses = true ->
  dict_get (_clear_none_from_dict
              [("tags", tags); ("summary", summary); ("parameters", parameters);
               ("description", description); ("requestBody", requestBody);
               ("responses", responses)]) "responses"
  = Some responses.
Proof.
  intros H. unfold _clear_none_from_dict. simpl. rewrite H.
  destruct (truthy tags), (truthy summary), (truthy parameters),
    (truthy description), (truthy requestBody); reflexivity.
Qed.

Lemma description_of_docstring (model : ResponseModel) (doc : string) :
  model_doc model = Some doc -> doc <> EmptyString ->
  get_success_response_description (Some model) = Str.strip doc.
Proof.
  intros Hdoc Hne. unfold get_success_response_description. rewrite Hdoc. simpl.
  destruct (String.eqb_spec doc EmptyString); [contradiction | reflexivity].
Qed.

Lemma description_of_template (response_model : option ResponseModel) :
  response_model = None
  \/ (exists model, response_model = Some model
                    /\ (model_doc model = None \/ model_doc model = Some EmptyString)) ->
  get_success_response_description response_model
  = Str.strip TEMPLATE_RESPONSE_DESCRIPTION.
Proof.
  unfold get_success_response_description.
  intros [-> | (model & -> & [-> | ->])]; reflexivity.
Qed.

(** C8: the ["responses"] entry of an operation has the single key
    ["200"]; the description under it is the response model's docstring,
    stripped, when the model has one (an empty docstring counts as none), and
    the stripped boilerplate text otherwise. *)
Theorem Operation_responses (method : string) (url_spec : URLSpec)
  (components operation components' : dict) :
  Operation method url_spec components = OK (operation, components') ->
  exists response_model description content,
    dict_get (response_models (handler_class url_spec)) method = Some response_model
    /\ dict_get operation "responses"
       = Some (VDict [("200", VDict [("description", VStr description);
                                     ("content", content)])])
    /\ (forall model doc,
          response_model = Some model -> model_doc model = Some doc -> doc <> EmptyString ->
          description = Str.strip doc)
    /\ (response_model = None
        \/ (exists model, response_model = Some model
                          /\ (model_doc model = None \/ model_doc model = Some EmptyString)) ->
        description = Str.strip TEMPLATE_RESPONSE_DESCRIPTION).
Proof.
  intros H. apply Operation_OK in H.
  destruct H as (ps & descr & body & resp & _ & _ & _ & Hresp & ->).
  unfold Responses in Hresp. inv_bind Hresp.
  unfold SuccessResponse in E. inv_bind E. inv_bind E.
  unfold dict_item in E0.
  destruct (dict_get (response_models (handler_class url_spec)) method)
    as [response_model|] eqn:Hmodel; [|discriminate E0].
  inv_OK E0. inv_OK E. cbn [fst snd] in Hresp. inv_OK Hresp.
  exists x0, (get_success_response_description x0).
  eexists. split; [reflexivity |].
  split; [apply dict_get_operation_responses; reflexivity |].
  split.
  - intros model doc -> Hdoc Hne. apply description_of_docstring; assumption.
  - apply description_of_template.
Qed.

Lemma Operation_responses_witness :
  exists response_model description content,
    dict_get (response_models (handler_class item_route)) "get" = Some response_model
    /\ dict_get item_get_operation "responses"
       = Some (VDict [("200", VDict [("description", VStr description);
                                     ("content", content)])])
    /\ (forall model doc,
          response_model = Some model -> model_doc model = Some doc -> doc <> EmptyString ->
          description = Str.strip doc)
    /\ (response_model = None
        \/ (exists model, response_model = Some model
                          /\ (model_doc model = None \/ model_doc model = Some EmptyString)) ->
        description = Str.strip TEMPLATE_RESPONSE_DESCRIPTION).
Proof.
  apply (Operation_responses "get" item_route [] item_get_operation
           [("Owner", owner_schema)]).
  vm_compute. reflexivity.
Defined.

(** ** C9: unrecognised annotations *)

(** C9: the claim has [_get_type] give no type, and never raise, on every
    annotation it does not recognise.  That holds of classes and of
    subscripted generics ([_get_type_unrecognized]), not of an annotation
    that is neither a class nor carries [__args__], such as the string of a
    forward reference: the last test of [_get_type] reads
    [annotation.__args__] and raises, and so do [Schema] and the parameter
    built on it. *)
Theorem _get_type_forward_reference_raises :
  types_mapping (Plain "'Page'") = None
  /\ is_optional (Plain "'Page'") = false
  /\ is_enum (Plain "'Page'") = false
  /\ is_list (Plain "'Page'") = false
  /\ _get_type (Plain "'Page'") = Raise AttributeError
  /\ Schema forward_parameter = Raise AttributeError
  /\ QueryParameter forward_parameter = Raise AttributeError.
Proof. repeat split; reflexivity. Qed.

(** ** C10: the keys of a parameter dict *)

(** C10: a parameter dict, for a path as for a query parameter, has the
    four keys ["name"], ["in"], ["required"], ["schema"] and no other; the
    compaction of [Schema] does not reach it, so an Optional query parameter
    carries ["required": false] and a parameter whose schema comes out empty
    carries ["schema": {}]. *)
Theorem Parameter_keys :
  (forall parameter param_type required d,
      Parameter_ parameter param_type required = OK d ->
      keys d = ["name"; "in"; "required"; "schema"])
  /\ (forall parameter d,
      PathParameter parameter = OK d ->
      keys d = ["name"; "in"; "required"; "schema"])
  /\ (forall parameter d,
      QueryParameter parameter = OK d ->
      keys d = ["name"; "in"; "required"; "schema"]
      /\ (is_optional (inspect.annotation parameter) = true ->
          dict_get d "required" = Some (VBool false))
      /\ (Schema parameter = OK [] -> dict_get d "schema" = Some (VDict [])))
  /\ QueryParameter quiet_parameter
     = OK [("name", VStr "quiet"); ("in", VStr "query"); ("required", VBool false);
           ("schema", VDict [])].
Proof.
  assert (Hkeys : forall parameter param_type required d,
             Parameter_ parameter param_type required = OK d ->
             keys d = ["name"; "in"; "required"; "schema"]).
  { intros parameter param_type required d H.
    apply Parameter_OK in H. destruct H as (schema & _ & ->). reflexivity. }
  split; [exact Hkeys |].
  split; [intros parameter d H; unfold PathParameter in H; exact (Hkeys _ _ _ _ H) |].
  split; [| reflexivity].
  intros parameter d H. unfold QueryParameter in H.
  split; [exact (Hkeys _ _ _ _ H) |].
  apply Parameter_OK in H.
  destruct H as (schema & Hs & ->). split.
  - intros Hopt. rewrite Hopt. reflexivity.
  - intros Hempty. rewrite Hempty in Hs. inv_OK Hs. reflexivity.
Qed.

Lemma Parameter_keys_witness :
  keys [("name", VStr "item_id"); ("in", VStr "path"); ("required", VBool true);
        ("schema", VDict [("type", VStr "integer")])]
  = ["name"; "in"; "required"; "schema"]
  /\ dict_get [("name", VStr "quiet"); ("in", VStr "query"); ("required", VBool false);
               ("schema", VDict [])] "schema" = Some (VDict []).
Proof.
  split.
  - apply (proj1 (proj2 Parameter_keys) item_id_parameter). reflexivity.
  - apply (proj1 (proj2 (proj2 Parameter_keys)) quiet_parameter); reflexivity.
Defined.

(** * Further properties *)

(** ** Compaction, key by key *)

Lemma dict_get_absent {V : Type} (d : list (string * V)) (k : string) :
  ~ In k (keys d) -> dict_get d k = None.
Proof.
  induction d as [|[k' v] rest IH]; simpl; intros H; [reflexivity |].
  destruct (String.eqb_spec k' k) as [->|Hne].
  - exfalso. apply H. left. reflexivity.
  - apply IH. intros Hin. apply H. right. exact Hin.
Qed.

Lemma dict_get_clear_none (d : dict) (k : string) :
  NoDup (keys d) ->
  dict_get (_clear_none_from_dict d) k
  = match dict_get d k with
    | Some v => if truthy v then Some v else None
    | None => None
    end.
Proof.
  unfold _clear_none_from_dict.
  induction d as [|[k' v] rest IH]; simpl; intros Hnd; [reflexivity |].
  inversion Hnd as [|? ? Hnot Hrest]; subst.
  destruct (truthy v) eqn:Hv; simpl.
  - destruct (String.eqb_spec k' k) as [->|Hne]; [rewrite Hv; reflexivity |].
    apply IH. exact Hrest.
  - rewrite (IH Hrest).
    destruct (String.eqb_spec k' k) as [->|Hne]; [|reflexivity].
    rewrite (dict_get_absent rest k Hnot), Hv. reflexivity.
Qed.

Ltac nodup_keys := simpl; repeat (constructor; [simpl; intuition discriminate |]); constructor.

(** ** The path of a route *)

Lemma format_slots_mismatch (tail names : list string) :
  Forall percent_free tail ->
  List.length names <> List.length tail ->
  Str.format (slots tail) names = Raise TypeError.
Proof.
  intros Hfree. revert names.
  induction Hfree as [|piece rest Hpiece Hrest IH]; intros names Hlen.
  - destruct names; [contradiction Hlen |]; reflexivity.
  - destruct names as [|n names']; [reflexivity |].
    change (slots (piece :: rest)) with ("%s" ++ (piece ++ slots rest))%string.
    cbn [Str.format append Ascii.eqb Bool.eqb negb].
    rewrite (format_literal piece (slots rest) names' Hpiece), IH; [reflexivity |].
    simpl in Hlen. intros H. apply Hlen. rewrite H. reflexivity.
Qed.

(** X1: when the raw path of a route with capture groups has not as many
    [%s] slots as the pattern has named groups (an unnamed group, a nested
    group), [get_path] raises [TypeError]; no path is produced with a slot
    left open or a name left over. *)
Theorem get_path_slot_mismatch (url_spec : URLSpec) (head : string) (tail : list string) :
  groups (regex url_spec) <> 0 ->
  NoDup (keys (groupindex (regex url_spec))) ->
  matcher_path url_spec = Some (head ++ slots tail)%string ->
  Forall percent_free (head :: tail) ->
  List.length tail <> List.length (groupindex (regex url_spec)) ->
  get_path url_spec = Raise TypeError.
Proof.
  intros Hg Hnd Hp Hfree Hlen.
  unfold get_path, replace_path_with_openapi_placeholders.
  apply Nat.eqb_neq in Hg. rewrite Hg, Hp.
  rewrite (extract_and_sort_names url_spec Hnd).
  inversion Hfree as [|? ? Hhead Htail]; subst.
  rewrite (format_literal head (slots tail) _ Hhead).
  rewrite (format_slots_mismatch tail _ Htail); [reflexivity |].
  unfold keys. rewrite !length_map.
  rewrite (Permutation_length (sorted_perm _ (fun item => snd item) _)).
  intros H. apply Hlen. symmetry. exact H.
Qed.

Lemma get_path_slot_mismatch_witness : get_path files_route = Raise TypeError.
Proof.
  apply (get_path_slot_mismatch files_route "/files/" [EmptyString]).
  - simpl. discriminate.
  - simpl. constructor.
  - reflexivity.
  - repeat constructor.
  - simpl. discriminate.
Defined.

Lemma rstrip_by_all (drop : ascii -> bool) (s : string) :
  all_chars drop s = true -> Str.rstrip_by drop s = EmptyString.
Proof.
  induction s as [|c rest IH]; simpl; intros H; [reflexivity |].
  apply andb_true_iff in H. destruct H as [Hc Hrest].
  rewrite (IH Hrest), Hc. reflexivity.
Qed.

(** X2: a path that [get_path] returns never ends in ['/'] or ['*'],
    whether the route has capture groups or not; a group-less route whose raw
    path consists of such characters only, like [/], gets the empty path. *)
Theorem get_path_stripped :
  (forall url_spec path,
      get_path url_spec = OK path ->
      forall r c, path = (r ++ String c EmptyString)%string -> Str.mem c "/*" = false)
  /\ (forall url_spec raw,
      groups (regex url_spec) = 0 ->
      matcher_path url_spec = Some raw ->
      all_chars (fun c => Str.mem c "/*") raw = true ->
      get_path url_spec = OK EmptyString).
Proof.
  split.
  - intros url_spec path H. unfold get_path in H. inv_bind H.
    destruct x as [raw|]; [|discriminate H]. simpl in H. inv_OK H.
    intros r c Hend.
    destruct (rstrip_by_spec (fun c => Str.mem c "/*") raw) as (_ & _ & _ & Hlast).
    apply (Hlast r c). exact Hend.
  - intros url_spec raw Hg Hp Hall.
    rewrite (get_path_no_groups url_spec raw Hg Hp).
    unfold Str.rstrip. rewrite (rstrip_by_all _ raw Hall). reflexivity.
Qed.

Lemma get_path_stripped_witness :
  (forall r c, "/items/{item_id}/?" = (r ++ String c EmptyString)%string ->
               Str.mem c "/*" = false)
  /\ get_path root_route = OK EmptyString.
Proof.
  split.
  - apply (proj1 get_path_stripped item_route). vm_compute. reflexivity.
  - apply (proj2 get_path_stripped root_route "/"); reflexivity.
Defined.

(** ** Types, items and defaults *)

(** X3: the only type names [_get_type] ever gives are ["string"],
    ["integer"], ["number"] and ["array"], through any nesting of Optional,
    list and enumeration. *)
Theorem _get_type_names (annotation : annot) (name : string) :
  _get_type annotation = OK (Some name) ->
  name = "string" \/ name = "integer" \/ name = "number" \/ name = "array".
Proof.
  intros H. apply _get_type_range in H. simpl in H.
  destruct H as [<-|[<-|[<-|[<-|[]]]]]; tauto.
Qed.

Lemma _get_type_names_witness :
  "array" = "string" \/ "array" = "integer" \/ "array" = "number" \/ "array" = "array".
Proof.
  apply (_get_type_names (OptionalOf (ListOf (Class C_str))) "array"). reflexivity.
Defined.



Lemma Items_shape (annotation : annot) (t : option string) (items : pyval) :
  _get_type annotation = OK t ->
  Items annotation = OK items ->
  (t = Some "array" /\ exists item_type, items = VDict [("type", opt_str item_type)])
  \/ (t <> Some "array" /\ items = VNone).
Proof.
  intros Ht Hi. unfold Items in Hi. rewrite Ht in Hi. simpl in Hi.
  destruct t as [s|]; simpl in Hi.
  - destruct (String.eqb_spec s "array") as [->|Hne]; simpl in Hi.
    + left. split; [reflexivity |]. inv_bind Hi. inv_OK Hi. exists x. reflexivity.
    + right. inv_OK Hi. split; [congruence | reflexivity].
  - right. inv_OK Hi. split; [discriminate | reflexivity].
Qed.

(** X5: a schema has the key ["items"] exactly when its ["type"] is
    ["array"], and the items are then a dict with the single key ["type"];
    that inner dict is not compacted, so its type can be [None], as for
    [List[bool]]. *)
Theorem Schema_items_iff_array (parameter : inspect.Parameter_) (d : dict) :
  Schema parameter = OK d ->
  (dict_get d "type" = Some (VStr "array")
   <-> exists item_type, dict_get d "items" = Some (VDict [("type", opt_str item_type)]))
  /\ (dict_get d "type" <> Some (VStr "array") -> dict_get d "items" = None).
Proof.
  intros H. apply Schema_OK in H.
  destruct H as (t & dflt & items & Ht & _ & Hi & ->).
  rewrite !dict_get_clear_none by nodup_keys. simpl.
  destruct (Items_shape _ t items Ht Hi) as [[-> (it & ->)] | [Hne ->]]; simpl.
  - split; [|intros Habs; contradiction Habs; reflexivity].
    split; [intros _; exists it; reflexivity | reflexivity].
  - split; [|reflexivity].
    split.
    + destruct t as [s|]; simpl; [|discriminate].
      destruct (String.eqb s EmptyString); [discriminate |].
      simpl. intros Heq. exfalso. apply Hne. congruence.
    + intros (it & Habs). discriminate Habs.
Qed.

Lemma Schema_items_iff_array_witness :
  Schema flags_parameter
  = OK [("type", VStr "array"); ("items", VDict [("type", VNone)])]
  /\ (dict_get [("type", VStr "array"); ("items", VDict [("type", VNone)])] "type"
      = Some (VStr "array")
      <-> exists item_type,
            dict_get [("type", VStr "array"); ("items", VDict [("type", VNone)])] "items"
            = Some (VDict [("type", opt_str item_type)])).
Proof.
  assert (H : Schema flags_parameter
              = OK [("type", VStr "array"); ("items", VDict [("type", VNone)])])
    by reflexivity.
  split; [exact H |].
  apply (proj1 (Schema_items_iff_array flags_parameter _ H)).
Defined.

(** X6: for an annotation that is not an enumeration, the schema carries
    the declared default under ["default"] only when that default is truthy:
    a missing default, [None], [0], [False], the empty string and the empty
    list are all left out. *)
Theorem Schema_default_truthy (parameter : inspect.Parameter_) (d : dict) :
  is_enum (inspect.annotation parameter) = false ->
  Schema parameter = OK d ->
  dict_get d "default"
  = match inspect.default parameter with
    | Some v => if truthy v then Some v else None
    | None => None
    end.
Proof.
  intros Henum H. apply Schema_OK in H.
  destruct H as (t & dflt & items & _ & Hd & _ & ->).
  rewrite dict_get_clear_none by nodup_keys. simpl.
  unfold _get_default_value_of_parameter in Hd.
  rewrite Henum, andb_false_r in Hd. inv_OK Hd.
  destruct (inspect.default parameter); reflexivity.
Qed.

Lemma Schema_default_truthy_witness :
  Schema offset_parameter = OK [("type", VStr "integer")]
  /\ dict_get [("type", VStr "integer")] "default" = None.
Proof.
  assert (H : Schema offset_parameter = OK [("type", VStr "integer")]) by reflexivity.
  split; [exact H |].
  apply (Schema_default_truthy offset_parameter _ eq_refl H).
Defined.

(** X7: for a parameter annotated with an enumeration, a default that is
    one of its members is replaced by the member's value; a truthy default
    that is plain data, not a member, makes [Schema] raise
    [AttributeError]. *)
Theorem Schema_enum_default (parameter : inspect.Parameter_) :
  is_enum (inspect.annotation parameter) = true ->
  (forall cls members name value d,
      inspect.default parameter = Some (VMember cls members name) ->
      dict_get members name = Some value ->
      Schema parameter = OK d ->
      dict_get d "default" = if truthy value then Some value else None)
  /\ (forall v t,
      inspect.default parameter = Some v ->
      truthy v = true ->
      get_value v = Raise AttributeError ->
      _get_type (inspect.annotation parameter) = OK t ->
      Schema parameter = Raise AttributeError).
Proof.
  intros Henum. split.
  - intros cls members name value d Hdef Hval H. apply Schema_OK in H.
    destruct H as (t & dflt & items & _ & Hd & _ & ->).
    rewrite dict_get_clear_none by nodup_keys. simpl.
    unfold _get_default_value_of_parameter in Hd.
    rewrite Hdef, Henum in Hd. simpl in Hd. rewrite Hval in Hd. inv_OK Hd.
    reflexivity.
  - intros v t Hdef Hv Hget Ht. unfold Schema. rewrite Ht. simpl.
    unfold _get_default_value_of_parameter.
    rewrite Hdef, Henum, Hv, Hget. reflexivity.
Qed.

Lemma Schema_enum_default_witness :
  dict_get color_schema "default" = Some (VStr "green")
  /\ Schema bad_color_parameter = Raise AttributeError.
Proof.
  split.
  - apply (proj1 (Schema_enum_default color_parameter eq_refl)
             "Color" color_members "GREEN" (VStr "green") color_schema);
      reflexivity.
  - apply (proj2 (Schema_enum_default bad_color_parameter eq_refl)
             (VStr "green") (Some "string")); reflexivity.
Defined.



(** X9: an enumeration without members has no first value to take a type
    from: [_get_type] raises [AttributeError], and with it [Schema] and the
    parameter dicts for any parameter so annotated. *)
Theorem Schema_empty_enum_raises (parameter : inspect.Parameter_) (name : string) :
  inspect.annotation parameter = EnumClass name [] ->
  _get_type (inspect.annotation parameter) = Raise AttributeError
  /\ Schema parameter = Raise AttributeError
  /\ QueryParameter parameter = Raise AttributeError
  /\ PathParameter parameter = Raise AttributeError.
Proof.
  intros Hann.
  assert (Ht : _get_type (inspect.annotation parameter) = Raise AttributeError).
  { rewrite Hann, _get_type_EnumClass. apply _get_type_Plain. }
  assert (Hs : Schema parameter = Raise AttributeError).
  { unfold Schema. rewrite Ht. reflexivity. }
  split; [exact Ht |]. split; [exact Hs |].
  unfold QueryParameter, PathParameter, Parameter_. rewrite Hs. split; reflexivity.
Qed.

Lemma Schema_empty_enum_raises_witness :
  Schema empty_enum_parameter = Raise AttributeError.
Proof.
  apply (proj1 (proj2 (Schema_empty_enum_raises empty_enum_parameter "Nothing" eq_refl))).
Defined.

(** ** Path parameters *)

Lemma mapM_Forall2 {A B : Type} (f : A -> result B) (l : list A) (ys : list B) :
  mapM f l = OK ys -> Forall2 (fun x y => f x = OK y) l ys.
Proof.
  revert ys. induction l as [|x rest IH]; simpl; intros ys H.
  - inv_OK H. constructor.
  - inv_bind H. inv_bind H. inv_OK H. constructor; [assumption | apply IH; assumption].
Qed.

(** X10: [path_helper] gives the path of [get_path] and leaves the
    parameters it is handed in place; after them it puts one dict per
    declared path parameter, in declaration order, each with ["in": "path"]
    and ["required": true], whatever the annotation, Optional included. *)
Theorem path_helper_parameters (url_spec : URLSpec) (parameters : list dict)
  (path : string) (result : list dict) :
  TornOpenPlugin.path_helper url_spec parameters = OK (path, result) ->
  get_path url_spec = OK path
  /\ exists added,
       result = parameters ++ added
       /\ Forall2 (fun declared d =>
                     dict_get d "name" = Some (VStr (inspect.name (snd declared)))
                     /\ dict_get d "in" = Some (VStr "path")
                     /\ dict_get d "required" = Some (VBool true))
            (path_params (handler_class url_spec)) added.
Proof.
  unfold TornOpenPlugin.path_helper, get_path_params. intros H.
  inv_bind H. inv_bind H. inv_OK H. split; [assumption |].
  exists x0. split; [reflexivity |].
  apply mapM_Forall2 in E0. unfold values in E0.
  remember (path_params (handler_class url_spec)) as declared eqn:Hd. clear Hd.
  revert x0 E0. induction declared as [|[k p] rest IH]; intros added H;
    inversion H as [|? ? ? ? Hp Hrest]; subst; constructor.
  - unfold PathParameter in Hp. apply Parameter_OK in Hp.
    destruct Hp as (schema & _ & ->). repeat split; reflexivity.
  - apply IH. exact Hrest.
Qed.

Lemma path_helper_parameters_witness :
  TornOpenPlugin.path_helper order_route []
  = OK ("/shops/{shop}/items/{item_id}",
        [[("name", VStr "item_id"); ("in", VStr "path"); ("required", VBool true);
          ("schema", VDict [("type", VStr "integer")])];
         [("name", VStr "quiet"); ("in", VStr "path"); ("required", VBool true);
          ("schema", VDict [])]])
  /\ get_path order_route = OK "/shops/{shop}/items/{item_id}".
Proof.
  assert (H : TornOpenPlugin.path_helper order_route []
              = OK ("/shops/{shop}/items/{item_id}",
                    [[("name", VStr "item_id"); ("in", VStr "path");
                      ("required", VBool true);
                      ("schema", VDict [("type", VStr "integer")])];
                     [("name", VStr "quiet"); ("in", VStr "path");
                      ("required", VBool true); ("schema", VDict [])]]))
    by (vm_compute; reflexivity).
  split; [exact H |].
  apply (proj1 (path_helper_parameters order_route [] _ _ H)).
Defined.

(** ** Decorators and the keys of an operation *)

Lemma Operation_key (method : string) (url_spec : URLSpec)
  (components operation components' : dict) (k : string) :
  Operation method url_spec components = OK (operation, components') ->
  exists parameters description requestBody responses,
    _get_query_params method url_spec = OK parameters
    /\ _get_operation_description method url_spec = OK description
    /\ RequestBody method url_spec = OK requestBody
    /\ Responses method url_spec components = OK (responses, components')
    /\ dict_get operation k
       = match dict_get [("tags", _get_tags method url_spec);
                         ("summary", _get_summary method url_spec);
                         ("parameters", parameters);
                         ("description", description);
                         ("requestBody", requestBody);
                         ("responses", responses)] k with
         | Some v => if truthy v then Some v else None
         | None => None
         end.
Proof.
  intros H. apply Operation_OK in H.
  destruct H as (ps & descr & body & resp & Hp & Hd & Hb & Hr & ->).
  exists ps, descr, body, resp. repeat split; try assumption.
  apply dict_get_clear_none. nodup_keys.
Qed.

(** X11: [tags] and [summary] can be stacked in either order with the
    same result, keep the docstring, and make the method count as
    implemented; what they store is what the operation shows: the list of tags
    under ["tags"] unless it is empty, the summary under ["summary"] unless it
    is falsy. *)
Theorem decorators_reach_operation :
  (forall tag_list text func,
      tags tag_list (summary text func) = summary text (tags tag_list func)
      /\ method_doc (tags tag_list func) = method_doc func
      /\ method_doc (summary text func) = method_doc func)
  /\ (forall method url_spec components operation components' tag_list text func,
      getattr (handler_class url_spec) method = OK (tags tag_list (summary text func)) ->
      Operation method url_spec components = OK (operation, components') ->
      _is_implemented method (handler_class url_spec) = OK true
      /\ dict_get operation "tags"
         = match tag_list with
           | [] => None
           | _ :: _ => Some (VList tag_list)
           end
      /\ dict_get operation "summary" = if truthy text then Some text else None).
Proof.
  split.
  - intros tag_list text func. destruct func; repeat split; reflexivity.
  - intros method url_spec components operation components' tag_list text func Hm H.
    assert (Hattr : dict_get (methods (handler_class url_spec)) method
                    = Some (tags tag_list (summary text func))).
    { unfold getattr in Hm.
      destruct (dict_get (methods (handler_class url_spec)) method); [|discriminate Hm].
      inv_OK Hm. reflexivity. }
    split; [unfold _is_implemented; rewrite Hm; destruct func; reflexivity |].
    split.
    + destruct (Operation_key _ _ _ _ _ "tags" H) as (ps & de & bo & re & _ & _ & _ & _ & ->).
      simpl. unfold _get_tags, getattr_default. rewrite Hattr.
      destruct func, tag_list; reflexivity.
    + destruct (Operation_key _ _ _ _ _ "summary" H)
        as (ps & de & bo & re & _ & _ & _ & _ & ->).
      simpl. unfold _get_summary, getattr_default. rewrite Hattr.
      destruct func; reflexivity.
Qed.

Lemma decorators_reach_operation_witness :
  exists operation components',
    Operation "get" order_route [] = OK (operation, components')
    /\ _is_implemented "get" order_handler = OK true
    /\ dict_get operation "tags" = Some (VList [VStr "items"; VStr "catalogue"])
    /\ dict_get operation "summary" = Some (VStr "One item").
Proof.
  destruct (Operation "get" order_route []) as [[operation components']|e] eqn:H;
    [|vm_compute in H; discriminate H].
  exists operation, components'. split; [reflexivity |].
  apply (proj2 decorators_reach_operation "get" order_route [] operation components'
           [VStr "items"; VStr "catalogue"] (VStr "One item") (Method (Some "  ") None None)).
  - reflexivity.
  - exact H.
Defined.

(** X12: an operation has the key ["parameters"] exactly when the
    handler declares query parameters for the verb; it then holds one query
    parameter dict per declared parameter, in declaration order. *)
Theorem Operation_parameters (method : string) (url_spec : URLSpec)
  (components operation components' : dict) :
  Operation method url_spec components = OK (operation, components') ->
  exists declared ps,
    dict_get (query_params (handler_class url_spec)) method = Some declared
    /\ Forall2 (fun d p => QueryParameter (snd d) = OK p) declared ps
    /\ dict_get operation "parameters"
       = match declared with
         | [] => None
         | _ :: _ => Some (VList (map VDict ps))
         end.
Proof.
  intros H.
  destruct (Operation_key _ _ _ _ _ "parameters" H)
    as (ps & de & bo & re & Hp & _ & _ & _ & ->).
  unfold _get_query_params, dict_item in Hp.
  destruct (dict_get (query_params (handler_class url_spec)) method)
    as [declared|]; [|discriminate Hp].
  simpl in Hp. inv_bind Hp. inv_OK Hp.
  exists declared, x. split; [reflexivity |].
  apply mapM_Forall2 in E. unfold values in E.
  split.
  - clear -E. revert x E. induction declared as [|d rest IH]; intros ps H;
      inversion H; subst; constructor; auto.
  - simpl. destruct declared; inversion E; subst; reflexivity.
Qed.

Lemma Operation_parameters_witness :
  exists declared ps,
    dict_get (query_params (handler_class order_route)) "post" = Some declared
    /\ Forall2 (fun d p => QueryParameter (snd d) = OK p) declared ps
    /\ dict_get order_post_operation "parameters"
       = match declared with
         | [] => None
         | _ :: _ => Some (VList (map VDict ps))
         end.
Proof.
  apply (Operation_parameters "post" order_route [] order_post_operation []).
  vm_compute. reflexivity.
Defined.

(** X13: an operation has the key ["requestBody"] exactly when the
    handler's [json_param] entry for the verb is truthy, and the body is then
    the schema rendered for that parameter, wrapped as
    [{"content": {"application/json": {"schema": ...}}}]. *)
Theorem Operation_requestBody (method : string) (url_spec : URLSpec)
  (components operation components' : dict) :
  Operation method url_spec components = OK (operation, components') ->
  exists entry,
    dict_get (json_param (handler_class url_spec)) method = Some entry
    /\ dict_get operation "requestBody"
       = match entry with
         | None => None
         | Some (_, rendered) =>
             Some (VDict [("content",
                           VDict [("application/json", VDict [("schema", rendered)])])])
         end.
Proof.
  intros H.
  destruct (Operation_key _ _ _ _ _ "requestBody" H)
    as (ps & de & bo & re & _ & _ & Hb & _ & ->).
  unfold RequestBody, dict_item in Hb.
  destruct (dict_get (json_param (handler_class url_spec)) method)
    as [entry|]; [|discriminate Hb].
  exists entry. split; [reflexivity |].
  simpl in Hb. destruct entry as [[n rendered]|]; inv_OK Hb; reflexivity.
Qed.

Lemma Operation_requestBody_witness :
  exists entry,
    dict_get (json_param (handler_class order_route)) "post" = Some entry
    /\ dict_get order_post_operation "requestBody"
       = match entry with
         | None => None
         | Some (_, rendered) =>
             Some (VDict [("content",
                           VDict [("application/json", VDict [("schema", rendered)])])])
         end.
Proof.
  apply (Operation_requestBody "post" order_route [] order_post_operation []).
  vm_compute. reflexivity.
Defined.

(** X14: the ["description"] of an operation is the docstring of the
    verb's method with the surrounding whitespace stripped; the key is left
    out when the method has no docstring or one made of whitespace only. *)
Theorem Operation_description (method : string) (url_spec : URLSpec)
  (components operation components' : dict) :
  Operation method url_spec components = OK (operation, components') ->
  exists m,
    getattr (handler_class url_spec) method = OK m
    /\ dict_get operation "description"
       = match method_doc m with
         | Some doc =>
             if String.eqb (Str.strip doc) EmptyString then None
             else Some (VStr (Str.strip doc))
         | None => None
         end.
Proof.
  intros H.
  destruct (Operation_key _ _ _ _ _ "description" H)
    as (ps & de & bo & re & _ & Hd & _ & _ & ->).
  unfold _get_operation_description in Hd. inv_bind Hd.
  exists x. split; [assumption |].
  simpl. destruct (method_doc x) as [doc|]; [|inv_OK Hd; reflexivity].
  simpl in Hd. destruct (String.eqb doc EmptyString) eqn:He; simpl in Hd; inv_OK Hd.
  - apply String.eqb_eq in He. subst doc. reflexivity.
  - simpl. destruct (String.eqb (Str.strip doc) EmptyString); reflexivity.
Qed.

Lemma Operation_description_witness :
  exists operation components' m,
    Operation "get" order_route [] = OK (operation, components')
    /\ getattr (handler_class order_route) "get" = OK m
    /\ method_doc m = Some "  "
    /\ dict_get operation "description" = None.
Proof.
  destruct (Operation "get" order_route []) as [[operation components']|e] eqn:H;
    [|vm_compute in H; discriminate H].
  destruct (Operation_description "get" order_route [] operation components' H)
    as (m & Hm & Hd).
  exists operation, components', m. split; [reflexivity |]. split; [exact Hm |].
  assert (Hdoc : method_doc m = Some "  ").
  { vm_compute in Hm. inv_OK Hm. reflexivity. }
  split; [exact Hdoc |]. rewrite Hd, Hdoc. reflexivity.
Defined.

(** X15: when the handler declares no response model for the verb, the
    operation still has its ["200"] response, with the boilerplate
    description and a content whose ["schema"] is [None]; the registry is
    left as it was. *)
Theorem Operation_without_response_model (method : string) (url_spec : URLSpec)
  (components operation components' : dict) :
  dict_get (response_models (handler_class url_spec)) method = Some None ->
  Operation method url_spec components = OK (operation, components') ->
  dict_get operation "responses"
  = Some (VDict [("200",
                  VDict [("description", VStr (Str.strip TEMPLATE_RESPONSE_DESCRIPTION));
                         ("content",
                          VDict [("application/json", VDict [("schema", VNone)])])])])
  /\ components' = components.
Proof.
  intros Hmodel H.
  destruct (Operation_key _ _ _ _ _ "responses" H)
    as (ps & de & bo & re & _ & _ & _ & Hr & ->).
  unfold Responses, SuccessResponse, dict_item in Hr. rewrite Hmodel in Hr.
  simpl in Hr. inv_OK Hr. split; reflexivity.
Qed.

Lemma Operation_without_response_model_witness :
  dict_get order_post_operation "responses"
  = Some (VDict [("200",
                  VDict [("description", VStr (Str.strip TEMPLATE_RESPONSE_DESCRIPTION));
                         ("content",
                          VDict [("application/json", VDict [("schema", VNone)])])])])
  /\ ([] : dict) = [].
Proof.
  apply (Operation_without_response_model "post" order_route [] order_post_operation []).
  - reflexivity.
  - vm_compute. reflexivity.
Defined.

(** X16: [Operation] needs the verb in all three tables of the handler
    and as an attribute of it: it raises [KeyError] when [query_params] has
    no entry for the verb, and whenever it returns, the verb is a key of
    [query_params], [json_param] and [response_models] and names a method. *)
Theorem Operation_needs_tables (method : string) (url_spec : URLSpec) (components : dict) :
  (dict_get (query_params (handler_class url_spec)) method = None ->
   Operation method url_spec components = Raise KeyError)
  /\ (forall operation components',
        Operation method url_spec components = OK (operation, components') ->
        dict_get (query_params (handler_class url_spec)) method <> None
        /\ dict_get (json_param (handler_class url_spec)) method <> None
        /\ dict_get (response_models (handler_class url_spec)) method <> None
        /\ dict_get (methods (handler_class url_spec)) method <> None).
Proof.
  split.
  - intros Hq. unfold Operation, _get_query_params, dict_item. rewrite Hq. reflexivity.
  - intros operation components' H. apply Operation_OK in H.
    destruct H as (ps & de & bo & re & Hp & Hd & Hb & Hr & _).
    unfold _get_query_params, dict_item in Hp.
    unfold _get_operation_description, getattr in Hd.
    unfold RequestBody, dict_item in Hb.
    unfold Responses, SuccessResponse, dict_item in Hr.
    repeat split; intros Habs; rewrite Habs in *; discriminate.
Qed.

Lemma Operation_needs_tables_witness :
  Operation "put" item_route [] = Raise KeyError.
Proof.
  apply (proj1 (Operation_needs_tables "put" item_route [])). reflexivity.
Defined.

(** ** Equality of values *)

Section PyvalInduction.
Variable P : pyval -> Prop.
Hypothesis HNone : P VNone.
Hypothesis HBool : forall b, P (VBool b).
Hypothesis HInt : forall z, P (VInt z).
Hypothesis HFloat : forall m e, P (VFloat m e).
Hypothesis HStr : forall s, P (VStr s).
Hypothesis HList : forall l, Forall P l -> P (VList l).
Hypothesis HDict : forall d, Forall (fun kv => P (snd kv)) d -> P (VDict d).
Hypothesis HMember : forall cls members name, P (VMember cls members name).
Hypothesis HObject : forall cls, P (VObject cls).

Lemma pyval_induction : forall v, P v.
Proof.
  fix IH 1. intros [ | b | z | m e | s | l | d | cls members name | cls ].
  - apply HNone.
  - apply HBool.
  - apply HInt.
  - apply HFloat.
  - apply HStr.
  - apply HList. revert l. fix IHl 1. intros [|x l'].
    + constructor.
    + constructor; [apply IH | apply IHl].
  - apply HDict. revert d. fix IHd 1. intros [|[k x] d'].
    + constructor.
    + constructor; [apply IH | apply IHd].
  - apply HMember.
  - apply HObject.
Qed.
End PyvalInduction.

Lemma dict_get_in {V : Type} (d : list (string * V)) (k : string) (v : V) :
  NoDup (keys d) -> In (k, v) d -> dict_get d k = Some v.
Proof.
  induction d as [|[k' v'] rest IH]; simpl; intros Hnd Hin; [contradiction |].
  inversion Hnd as [|? ? Hnot Hrest]; subst.
  destruct Hin as [Heq | Hin].
  - inversion Heq; subst. rewrite String.eqb_refl. reflexivity.
  - destruct (String.eqb_spec k' k) as [->|Hne].
    + exfalso. apply Hnot. apply (in_map fst) in Hin. exact Hin.
    + apply IH; assumption.
Qed.

Lemma py_eq_refl (v : pyval) : wf_val v -> py_eq v v = true.
Proof.
  induction v as [ | b | z | m e | s | l IHl | d IHd | cls members name | cls ]
    using pyval_induction; intros Hwf.
  - reflexivity.
  - simpl. unfold number_eqb. apply Z.eqb_refl.
  - simpl. unfold number_eqb. apply Z.eqb_refl.
  - simpl. unfold number_eqb. apply Z.eqb_refl.
  - simpl. apply String.eqb_refl.
  - simpl in Hwf. simpl. induction IHl as [|x l' Hx Hl' IH].
    + reflexivity.
    + destruct Hwf as [Hwx Hwl]. rewrite (Hx Hwx). simpl. apply IH. exact Hwl.
  - simpl in Hwf. destruct Hwf as [Hnd Hwf].
    assert (Hall : forall es,
               (forall k v, In (k, v) es -> dict_get d k = Some v /\ py_eq v v = true) ->
               (fix all (es : list (string * pyval)) : bool :=
                  match es with
                  | [] => true
                  | (k, v) :: es' =>
                      match dict_get d k with
                      | Some v2 => py_eq v v2
                      | None => false
                      end && all es'
                  end) es = true).
    { induction es as [|[k v] es' IHes]; intros Hes; [reflexivity |].
      destruct (Hes k v (or_introl eq_refl)) as [Hget Hrefl].
      rewrite Hget, Hrefl. simpl. apply IHes.
      intros k' v' Hin. apply Hes. right. exact Hin. }
    simpl. rewrite Nat.eqb_refl. simpl. apply Hall.
    intros k v Hin. split; [apply dict_get_in; assumption |].
    clear Hall. induction IHd as [|[k' x] d' Hx Hd' IH]; [contradiction |].
    destruct Hwf as [Hwx Hwd]. inversion Hnd as [|? ? _ Hnd']; subst.
    destruct Hin as [Heq | Hin].
    + inversion Heq; subst. apply Hx. exact Hwx.
    + apply IH; assumption.
  - simpl. rewrite !String.eqb_refl. reflexivity.
  - simpl. apply String.eqb_refl.
Qed.

(** ** The registry over a run *)

Lemma schema_monotone (schemas schemas' : dict) (component_id : string)
  (component : pyval) :
  TornOpenComponents.schema schemas component_id component = OK schemas' ->
  forall k v, dict_get schemas k = Some v -> dict_get schemas' k = Some v.
Proof.
  unfold TornOpenComponents.schema, Components.schema. intros H k v Hk.
  destruct (py_eq (TornOpenComponents.get schemas component_id) component).
  - inv_OK H. exact Hk.
  - destruct (dict_get schemas component_id) eqn:Hid; [discriminate H |].
    assert (Hne : k <> component_id) by (intros ->; congruence).
    destruct (if truthy component then component else VDict []); inv_OK H;
      rewrite (dict_get_set_other _ _ _ _ Hne); exact Hk.
Qed.

Lemma schema_registers (schemas schemas' : dict) (component_id : string) (r : dict) :
  wf_val (VDict r) ->
  TornOpenComponents.schema schemas component_id (VDict r) = OK schemas' ->
  exists v, dict_get schemas' component_id = Some v /\ py_eq v (VDict r) = true.
Proof.
  unfold TornOpenComponents.schema, TornOpenComponents.get, Components.schema.
  intros Hwf H.
  destruct (dict_get schemas component_id) as [stored|] eqn:Hid.
  - destruct (py_eq stored (VDict r)) eqn:Heq; [|discriminate H].
    inv_OK H. exists stored. split; assumption.
  - simpl in H. exists (VDict r). destruct r; simpl in H; inv_OK H;
      (split; [apply dict_get_set_same | apply py_eq_refl; exact Hwf]).
Qed.

Lemma schema_compatible (schemas : dict) (component_id : string) (v component : pyval) :
  dict_get schemas component_id = Some v ->
  py_eq v component = true ->
  TornOpenComponents.schema schemas component_id component = OK schemas.
Proof.
  unfold TornOpenComponents.schema, TornOpenComponents.get. intros -> ->. reflexivity.
Qed.

Lemma register_all_monotone (refs schemas schemas' : dict) :
  register_all refs schemas = OK schemas' ->
  forall k v, dict_get schemas k = Some v -> dict_get schemas' k = Some v.
Proof.
  revert schemas. induction refs as [|[id s] rest IH]; simpl; intros schemas H k v Hk.
  - inv_OK H. exact Hk.
  - inv_bind H. apply (IH _ H). apply (schema_monotone _ _ _ _ E). exact Hk.
Qed.

Lemma register_all_registers (refs schemas schemas' : dict) :
  dict_schemas refs ->
  register_all refs schemas = OK schemas' ->
  forall id s, In (id, s) refs ->
               exists v, dict_get schemas' id = Some v /\ py_eq v s = true.
Proof.
  intros Hrefs. revert schemas.
  induction Hrefs as [|[id0 s0] rest (r & Hs0 & Hwf) Hrest IH];
    simpl; intros schemas H id s Hin; [contradiction |].
  simpl in Hs0. subst s0. inv_bind H. destruct Hin as [Heq | Hin].
  - inversion Heq; subst.
    destruct (schema_registers _ _ _ _ Hwf E) as (v & Hv & Hpy).
    exists v. split; [|exact Hpy]. apply (register_all_monotone _ _ _ H). exact Hv.
  - apply (IH _ H). exact Hin.
Qed.

Lemma register_all_compatible (refs schemas : dict) :
  (forall id s, In (id, s) refs ->
                exists v, dict_get schemas id = Some v /\ py_eq v s = true) ->
  register_all refs schemas = OK schemas.
Proof.
  induction refs as [|[id s] rest IH]; simpl; intros H; [reflexivity |].
  destruct (H id s (or_introl eq_refl)) as (v & Hv & Hpy).
  rewrite (schema_compatible _ _ _ _ Hv Hpy). simpl.
  apply IH. intros id' s' Hin. apply H. right. exact Hin.
Qed.

Lemma SuccessResponseModelSchema_OK (response_model : option ResponseModel)
  (components : dict) (schema : pyval) (components' : dict) :
  SuccessResponseModelSchema response_model components = OK (schema, components') ->
  schema = inline_schema response_model
  /\ register_all (model_refs response_model) components = OK components'.
Proof.
  unfold SuccessResponseModelSchema, inline_schema, model_refs.
  destruct response_model as [model|]; [|intros H; inv_OK H; split; reflexivity].
  destruct (model_schema model) as [ | b | z | m e | s | l | d | c ms n | c ]; simpl;
    try (intros H; inv_OK H; split; reflexivity).
  - destruct b; simpl; intros H; [discriminate H | inv_OK H; split; reflexivity].
  - destruct (Z.eqb z 0); simpl; intros H; [inv_OK H; split; reflexivity | discriminate H].
  - destruct (Z.eqb m 0); simpl; intros H; [inv_OK H; split; reflexivity | discriminate H].
  - destruct (String.eqb s EmptyString); simpl; intros H;
      [inv_OK H; split; reflexivity | discriminate H].
  - destruct l; simpl; intros H; [inv_OK H; split; reflexivity | discriminate H].
  - destruct d as [|e0 d0]; [intros H; inv_OK H; split; reflexivity |].
    cbn [truthy negb].
    destruct (dict_get (e0 :: d0) "definitions") as [refs|];
      [|simpl; intros H; inv_OK H; split; reflexivity].
    destruct refs as [ | b | z | m e | s | l | refs | c ms n | c ]; simpl;
      try (intros H; inv_OK H; split; reflexivity); try discriminate.
    + destruct b; simpl; intros H; [discriminate H | inv_OK H; split; reflexivity].
    + destruct (Z.eqb z 0); simpl; intros H;
        [inv_OK H; split; reflexivity | discriminate H].
    + destruct (Z.eqb m 0); simpl; intros H;
        [inv_OK H; split; reflexivity | discriminate H].
    + destruct (String.eqb s EmptyString); simpl; intros H;
        [inv_OK H; split; reflexivity | discriminate H].
    + destruct l; simpl; intros H; [inv_OK H; split; reflexivity | discriminate H].
    + destruct refs as [|r0 refs0]; simpl; [intros H; inv_OK H; split; reflexivity |].
      intros H. inv_bind H. inv_OK H. split; [reflexivity | exact E].
Qed.

Lemma SuccessResponseModelSchema_rerun (response_model : option ResponseModel)
  (c1 c1' c2 c2' : dict) (schema : pyval) :
  SuccessResponseModelSchema response_model c1 = OK (schema, c1') ->
  register_all (model_refs response_model) c2 = OK c2' ->
  SuccessResponseModelSchema response_model c2 = OK (schema, c2').
Proof.
  unfold SuccessResponseModelSchema, model_refs.
  destruct response_model as [model|];
    [|intros H R; inv_OK H; inv_OK R; reflexivity].
  destruct (model_schema model) as [ | b | z | m e | s | l | d | c ms n | c ]; simpl;
    try (intros H R; inv_OK H; inv_OK R; reflexivity); try discriminate.
  - destruct b; simpl; intros H R; [discriminate H | inv_OK H; inv_OK R; reflexivity].
  - destruct (Z.eqb z 0); simpl; intros H R;
      [inv_OK H; inv_OK R; reflexivity | discriminate H].
  - destruct (Z.eqb m 0); simpl; intros H R;
      [inv_OK H; inv_OK R; reflexivity | discriminate H].
  - destruct (String.eqb s EmptyString); simpl; intros H R;
      [inv_OK H; inv_OK R; reflexivity | discriminate H].
  - destruct l; simpl; intros H R; [inv_OK H; inv_OK R; reflexivity | discriminate H].
  - destruct d as [|e0 d0]; [intros H R; inv_OK H; inv_OK R; reflexivity |].
    cbn [truthy negb].
    destruct (dict_get (e0 :: d0) "definitions") as [refs|];
      [|simpl; intros H R; inv_OK H; inv_OK R; reflexivity].
    destruct refs as [ | b | z | m e | s | l | refs | c ms n | c ]; simpl;
      try (intros H R; inv_OK H; inv_OK R; reflexivity); try discriminate.
    + destruct b; simpl; intros H R; [discriminate H | inv_OK H; inv_OK R; reflexivity].
    + destruct (Z.eqb z 0); simpl; intros H R;
        [inv_OK H; inv_OK R; reflexivity | discriminate H].
    + destruct (Z.eqb m 0); simpl; intros H R;
        [inv_OK H; inv_OK R; reflexivity | discriminate H].
    + destruct (String.eqb s EmptyString); simpl; intros H R;
        [inv_OK H; inv_OK R; reflexivity | discriminate H].
    + destruct l; simpl; intros H R; [inv_OK H; inv_OK R; reflexivity | discriminate H].
    + destruct refs as [|[id0 s0] refs0]; simpl;
        [intros H R; inv_OK H; inv_OK R; reflexivity |].
      intros H R. inv_bind H. inv_OK H. rewrite R. reflexivity.
Qed.

Lemma Responses_OK (method : string) (url_spec : URLSpec) (components : dict)
  (responses : pyval) (components' : dict) :
  Responses method url_spec components = OK (responses, components') ->
  exists response_model,
    dict_get (response_models (handler_class url_spec)) method = Some response_model
    /\ responses = response_dict response_model
    /\ SuccessResponseModelSchema response_model components
       = OK (inline_schema response_model, components').
Proof.
  unfold Responses, SuccessResponse, dict_item. intros H. inv_bind H. inv_bind E.
  inv_bind E.
  destruct (dict_get (response_models (handler_class url_spec)) method)
    as [response_model|]; [|discriminate E0].
  inv_OK E0. inv_OK E. cbn [fst snd] in H. inv_OK H.
  destruct x1 as [schema c']. exists x0.
  destruct (SuccessResponseModelSchema_OK _ _ _ _ E1) as [-> _].
  repeat split. exact E1.
Qed.

Lemma Responses_build (method : string) (url_spec : URLSpec) (components components' : dict)
  (response_model : option ResponseModel) :
  dict_get (response_models (handler_class url_spec)) method = Some response_model ->
  SuccessResponseModelSchema response_model components
    = OK (inline_schema response_model, components') ->
  Responses method url_spec components = OK (response_dict response_model, components').
Proof.
  intros Hm Hs. unfold Responses, SuccessResponse, dict_item. rewrite Hm. simpl.
  rewrite Hs. reflexivity.
Qed.

Lemma Operation_monotone (method : string) (url_spec : URLSpec)
  (components operation components' : dict) :
  Operation method url_spec components = OK (operation, components') ->
  forall k v, dict_get components k = Some v -> dict_get components' k = Some v.
Proof.
  intros H. apply Operation_OK in H.
  destruct H as (ps & de & bo & re & _ & _ & _ & Hr & _).
  apply Responses_OK in Hr. destruct Hr as (rm & _ & _ & Hs).
  apply SuccessResponseModelSchema_OK in Hs. destruct Hs as [_ Hreg].
  apply (register_all_monotone _ _ _ Hreg).
Qed.

(** X17: over a whole route, the registry only grows: every identifier
    registered before [Operations] runs is still registered afterwards, with
    the very schema it had. *)
Theorem Operations_keep_registry (url_spec : URLSpec)
  (components operations components' : dict) :
  Operations url_spec components = OK (operations, components') ->
  forall component_id stored,
    dict_get components component_id = Some stored ->
    dict_get components' component_id = Some stored.
Proof.
  unfold Operations. intros H. inv_bind H. clear E.
  remember ([] : dict) as acc eqn:Hacc. clear Hacc.
  revert acc components H.
  induction x as [|m rest IH]; simpl; intros acc components H id stored Hid.
  - inv_OK H. exact Hid.
  - inv_bind H. destruct x as [op c1]. cbn [fst snd] in H.
    apply (IH _ _ H). apply (Operation_monotone _ _ _ _ _ E). exact Hid.
Qed.

Lemma Operations_keep_registry_witness :
  dict_get [("Pet", pet_object); ("Owner", owner_schema)] "Pet" = Some pet_object.
Proof.
  apply (Operations_keep_registry item_route pet_registry
           [("get", VDict item_get_operation)]
           [("Pet", pet_object); ("Owner", owner_schema)]).
  - vm_compute. reflexivity.
  - reflexivity.
Defined.

(** X18: building an operation again over the registry its first
    building left succeeds, gives the same operation and changes nothing, as
    long as the response model's referenced schemas are dicts: a second route
    with the same response model does not trip over the names the first one
    registered. *)
Theorem Operation_again (method : string) (url_spec : URLSpec)
  (components operation components' : dict) :
  dict_schemas (referenced_schemas url_spec method) ->
  Operation method url_spec components = OK (operation, components') ->
  Operation method url_spec components' = OK (operation, components').
Proof.
  intros Hrefs H. apply Operation_OK in H.
  destruct H as (ps & de & bo & re & Hp & Hd & Hb & Hr & ->).
  apply Responses_OK in Hr. destruct Hr as (rm & Hm & -> & Hs).
  unfold referenced_schemas in Hrefs. rewrite Hm in Hrefs.
  pose proof (SuccessResponseModelSchema_OK _ _ _ _ Hs) as [_ Hreg].
  assert (Hagain : register_all (model_refs rm) components' = OK components').
  { apply register_all_compatible. intros id s Hin.
    apply (register_all_registers _ _ _ Hrefs Hreg). exact Hin. }
  pose proof (SuccessResponseModelSchema_rerun _ _ _ _ _ _ Hs Hagain) as Hs'.
  unfold Operation. rewrite Hp, Hd, Hb. simpl.
  rewrite (Responses_build _ _ _ _ _ Hm Hs'). reflexivity.
Qed.

Lemma Operation_again_witness :
  Operation "get" item_route [("Owner", owner_schema)]
  = OK (item_get_operation, [("Owner", owner_schema)]).
Proof.
  apply (Operation_again "get" item_route []).
  - repeat constructor. exists [("title", VStr "Owner"); ("type", VStr "object")].
    split; [reflexivity |]. simpl. split; [nodup_keys | tauto].
  - vm_compute. reflexivity.
Defined.

(** X19: the dict of an operation does not depend on what the registry
    holds: two buildings of the same operation that both succeed give the same
    dict. *)
Theorem Operation_independent_of_registry (method : string) (url_spec : URLSpec)
  (c1 c2 o1 o2 c1' c2' : dict) :
  Operation method url_spec c1 = OK (o1, c1') ->
  Operation method url_spec c2 = OK (o2, c2') ->
  o1 = o2.
Proof.
  intros H1 H2. apply Operation_OK in H1. apply Operation_OK in H2.
  destruct H1 as (ps & de & bo & re & Hp & Hd & Hb & Hr & ->).
  destruct H2 as (ps' & de' & bo' & re' & Hp' & Hd' & Hb' & Hr' & ->).
  apply Responses_OK in Hr. apply Responses_OK in Hr'.
  destruct Hr as (rm & Hm & -> & _). destruct Hr' as (rm' & Hm' & -> & _).
  congruence.
Qed.

Lemma Operation_independent_of_registry_witness : item_get_operation = item_get_operation.
Proof.
  apply (Operation_independent_of_registry "get" item_route
           [] [("Owner", owner_schema)] _ _
           [("Owner", owner_schema)] [("Owner", owner_schema)]);
    vm_compute; reflexivity.
Defined.

Lemma dict_get_remove_same {V : Type} (d : list (string * V)) (k : string) :
  dict_get (dict_remove d k) k = None.
Proof.
  induction d as [|[k' v] rest IH]; simpl; [reflexivity |].
  destruct (String.eqb_spec k' k) as [->|Hne]; [exact IH |].
  simpl. destruct (String.eqb_spec k' k); [contradiction | exact IH].
Qed.

Lemma dict_get_remove_other {V : Type} (d : list (string * V)) (k k' : string) :
  k' <> k -> dict_get (dict_remove d k) k' = dict_get d k'.
Proof.
  intros Hne. induction d as [|[k0 v] rest IH]; simpl; [reflexivity |].
  destruct (String.eqb_spec k0 k) as [->|Hne0].
  - destruct (String.eqb_spec k k'); [congruence | exact IH].
  - simpl. destruct (String.eqb_spec k0 k'); [reflexivity | exact IH].
Qed.

(** X20: the schema put into a response is the one the model renders
    with its ["definitions"] entry removed and every other entry as rendered;
    the referenced schemas under ["definitions"], when they are dicts, are all
    found in the registry afterwards, each under its own identifier and equal
    to what the model rendered. *)
Theorem SuccessResponseModelSchema_definitions (model : ResponseModel) (d : dict)
  (components : dict) (schema : pyval) (components' : dict) :
  model_schema model = VDict d ->
  SuccessResponseModelSchema (Some model) components = OK (schema, components') ->
  schema = VDict (dict_remove d "definitions")
  /\ dict_get (dict_remove d "definitions") "definitions" = None
  /\ (forall k, k <> "definitions" ->
                dict_get (dict_remove d "definitions") k = dict_get d k)
  /\ (forall refs,
        dict_get d "definitions" = Some (VDict refs) ->
        dict_schemas refs ->
        forall id referenced,
          In (id, referenced) refs ->
          exists stored,
            dict_get components' id = Some stored /\ py_eq stored referenced = true).
Proof.
  intros Hd H. apply SuccessResponseModelSchema_OK in H. destruct H as [-> Hreg].
  unfold inline_schema, model_refs in *. rewrite Hd in *.
  split; [reflexivity |].
  split; [apply dict_get_remove_same |].
  split; [intros k Hk; apply dict_get_remove_other; exact Hk |].
  intros refs Hrefs Hdicts id referenced Hin. rewrite Hrefs in Hreg.
  apply (register_all_registers _ _ _ Hdicts Hreg). exact Hin.
Qed.

Lemma SuccessResponseModelSchema_definitions_witness :
  exists schema components',
    SuccessResponseModelSchema (Some item_model) [] = OK (schema, components')
    /\ dict_get components' "Owner" <> None
    /\ schema = VDict [("title", VStr "Item");
                       ("type", VStr "object");
                       ("properties",
                        VDict [("owner",
                                VDict [("$ref", VStr "#/components/schemas/Owner")])])].
Proof.
  destruct (SuccessResponseModelSchema (Some item_model) [])
    as [[schema components']|e] eqn:H; [|vm_compute in H; discriminate H].
  exists schema, components'. split; [reflexivity |].
  destruct (SuccessResponseModelSchema_definitions item_model _ [] schema components'
              eq_refl H) as (Hs & _ & _ & Hreg).
  split; [|exact Hs].
  destruct (Hreg [("Owner", owner_schema)] eq_refl) with (id := "Owner")
                                                        (referenced := owner_schema)
    as (stored & Hstored & _).
  - repeat constructor. exists [("title", VStr "Owner"); ("type", VStr "object")].
    split; [reflexivity |]. simpl. split; [nodup_keys | tauto].
  - simpl. tauto.
  - rewrite Hstored. discriminate.
Defined.

Lemma schema_dict_outcome (schemas : dict) (component_id : string) (r : dict) :
  (exists schemas', TornOpenComponents.schema schemas component_id (VDict r) = OK schemas')
  \/ TornOpenComponents.schema schemas component_id (VDict r)
     = Raise DuplicateComponentNameError.
Proof.
  unfold TornOpenComponents.schema, Components.schema.
  destruct (py_eq (TornOpenComponents.get schemas component_id) (VDict r));
    [left; eexists; reflexivity |].
  destruct (dict_get schemas component_id); [right; reflexivity |].
  left. destruct r; eexists; reflexivity.
Qed.

Lemma register_all_conflict (refs schemas : dict) (id : string) (s stored : pyval) :
  dict_schemas refs ->
  In (id, s) refs ->
  dict_get schemas id = Some stored ->
  py_eq stored s = false ->
  register_all refs schemas = Raise DuplicateComponentNameError.
Proof.
  intros Hrefs. revert schemas.
  induction Hrefs as [|[id0 s0] rest (r & Hs0 & _) Hrest IH];
    intros schemas Hin Hid Hne; [contradiction |].
  simpl in Hs0. subst s0. simpl.
  destruct Hin as [Heq | Hin].
  - inversion Heq; subst.
    unfold TornOpenComponents.schema, TornOpenComponents.get, Components.schema.
    rewrite Hid, Hne. reflexivity.
  - destruct (schema_dict_outcome schemas id0 r) as [(schemas' & Hok) | Hdup].
    + rewrite Hok. simpl. apply IH; [exact Hin | | exact Hne].
      apply (schema_monotone _ _ _ _ Hok). exact Hid.
    + rewrite Hdup. reflexivity.
Qed.

(** X21: when a schema the response model refers to is already
    registered under its identifier with different content, building the
    responses raises [DuplicateComponentNameError], and the operation cannot
    be built: a clash of names ends the generation. *)
Theorem Operation_conflict (method : string) (url_spec : URLSpec) (components : dict)
  (id : string) (referenced stored : pyval) :
  dict_schemas (referenced_schemas url_spec method) ->
  In (id, referenced) (referenced_schemas url_spec method) ->
  dict_get components id = Some stored ->
  py_eq stored referenced = false ->
  Responses method url_spec components = Raise DuplicateComponentNameError
  /\ forall operation components',
       Operation method url_spec components <> OK (operation, components').
Proof.
  intros Hrefs Hin Hid Hne.
  pose proof (register_all_conflict _ _ _ _ _ Hrefs Hin Hid Hne) as Hraise.
  split.
  - unfold referenced_schemas in *.
    unfold Responses, SuccessResponse, dict_item.
    destruct (dict_get (response_models (handler_class url_spec)) method)
      as [rm|]; [|contradiction]. simpl.
    unfold SuccessResponseModelSchema. unfold model_refs in *.
    destruct rm as [model|]; [|contradiction].
    destruct (model_schema model) as [ | b | z | m e | s | l | d | c ms n | c ];
      try contradiction.
    destruct (dict_get d "definitions") as [refs|] eqn:Hdef; [|contradiction].
    destruct refs as [ | b | z | m e | s | l | refs | c ms n | c ]; try contradiction.
    destruct d as [|e0 d0]; [discriminate Hdef |]. cbn [truthy negb].
    destruct refs as [|r0 refs0]; [contradiction |].
    cbn [truthy negb]. rewrite Hraise. reflexivity.
  - intros operation components' H. apply Operation_OK in H.
    destruct H as (ps & de & bo & re & _ & _ & _ & Hr & _).
    apply Responses_OK in Hr. destruct Hr as (rm & Hm & _ & Hs).
    apply SuccessResponseModelSchema_OK in Hs. destruct Hs as [_ Hreg].
    unfold referenced_schemas in Hraise. rewrite Hm in Hraise.
    rewrite Hraise in Hreg. discriminate Hreg.
Qed.

Lemma Operation_conflict_witness :
  Responses "get" item_route [("Owner", pet_string)] = Raise DuplicateComponentNameError
  /\ forall operation components',
       Operation "get" item_route [("Owner", pet_string)] <> OK (operation, components').
Proof.
  apply (Operation_conflict "get" item_route [("Owner", pet_string)]
           "Owner" owner_schema pet_string).
  - repeat constructor. exists [("title", VStr "Owner"); ("type", VStr "object")].
    split; [reflexivity |]. simpl. split; [nodup_keys | tauto].
  - simpl. tauto.
  - reflexivity.
  - reflexivity.
Defined.

(** ** Verbs without a method *)

Lemma filterM_none {A : Type} (f : A -> result bool) (l : list A) :
  (forall x, In x l -> f x = OK false) -> filterM f l = OK [].
Proof.
  induction l as [|a rest IH]; simpl; intros H; [reflexivity |].
  rewrite (H a (or_introl eq_refl)). simpl.
  rewrite IH; [reflexivity |]. intros x Hin. apply H. right. exact Hin.
Qed.

Lemma filterM_raises {A : Type} (f : A -> result bool) (l : list A) (e : exn) :
  (forall x, In x l -> is_ok (f x) = true \/ f x = Raise e) ->
  (exists x, In x l /\ f x = Raise e) ->
  filterM f l = Raise e.
Proof.
  induction l as [|a rest IH]; simpl; intros Hall (x & Hin & Hx); [contradiction |].
  destruct (Hall a (or_introl eq_refl)) as [Hok | Hraise].
  - destruct (f a) as [b|e'] eqn:Ha; [|discriminate Hok]. simpl.
    destruct Hin as [<- | Hin]; [congruence |].
    rewrite IH; [reflexivity | | exists x; split; assumption].
    intros y Hy. apply Hall. right. exact Hy.
  - rewrite Hraise. reflexivity.
Qed.

(** X22: a handler all of whose supported verbs still have the
    framework's stub gives the empty operations mapping and leaves the
    registry alone; a handler that lists a verb for which it has no attribute
    makes [Operations] raise [AttributeError], even when other verbs are
    implemented. *)
Theorem Operations_without_methods (url_spec : URLSpec) (components : dict) :
  ((forall verb,
       In verb (map Str.lower (SUPPORTED_METHODS (handler_class url_spec))) ->
       getattr (handler_class url_spec) verb = OK Unimplemented) ->
   Operations url_spec components = OK ([], components))
  /\ ((exists verb,
          In verb (map Str.lower (SUPPORTED_METHODS (handler_class url_spec)))
          /\ dict_get (methods (handler_class url_spec)) verb = None) ->
      Operations url_spec components = Raise AttributeError).
Proof.
  unfold Operations, _get_implemented_http_methods. split.
  - intros Hstub. rewrite filterM_none; [reflexivity |].
    intros verb Hin. unfold _is_implemented. rewrite (Hstub verb Hin). reflexivity.
  - intros (verb & Hin & Hnone). rewrite (filterM_raises _ _ AttributeError).
    + reflexivity.
    + intros x _. unfold _is_implemented, getattr.
      destruct (dict_get (methods (handler_class url_spec)) x) as [[|doc t s]|];
        simpl; tauto.
    + exists verb. split; [exact Hin |].
      unfold _is_implemented, getattr. rewrite Hnone. reflexivity.
Qed.

Lemma Operations_without_methods_witness :
  Operations idle_route pet_registry = OK ([], pet_registry)
  /\ Operations broken_route [] = Raise AttributeError.
Proof.
  split.
  - apply (proj1 (Operations_without_methods idle_route pet_registry)).
    simpl. intros verb [<-|[<-|[]]]; reflexivity.
  - apply (proj2 (Operations_without_methods broken_route [])).
    exists "purge". split; [simpl; tauto | reflexivity].
Defined.
